(** * The Gmail integration test function: sender matcher, token-refreshing
      client and report handler

    Shallow embedding of
    [supabase/functions/test-gmail-integration/index.ts].

    Strings are sequences of code units.  The development works with the
    code units below 256 (one [ascii] per unit); on that range
    [toLowerCase], the white-space class of regular expressions and of
    [trim], and the comparison of strings are those of ECMAScript. *)

From Stdlib Require Import Bool Arith NArith ZArith Lia List Ascii String.
From Stdlib Require Import DecimalString Permutation.
Import ListNotations.

Open Scope string_scope.

(** ** Strings as the source uses them *)

Module JsString.

(** Units with a lower-case partner: [A]-[Z], and the accented capitals
    of the upper half except the multiplication sign. *)
Definition isUpperUnit (n : N) : bool :=
  ((65 <=? n) && (n <=? 90) ||
   (192 <=? n) && (n <=? 222) && negb (n =? 215))%N.

Definition lowerUnit (c : ascii) : ascii :=
  let n := N_of_ascii c in
  if isUpperUnit n then ascii_of_N (n + 32) else c.

(** [s.toLowerCase()] *)
Fixpoint toLowerCase (s : string) : string :=
  match s with
  | EmptyString => EmptyString
  | String c s' => String (lowerUnit c) (toLowerCase s')
  end.

(** [s.startsWith(t)] *)
Fixpoint startsWith (s t : string) {struct t} : bool :=
  match t, s with
  | EmptyString, _ => true
  | String _ _, EmptyString => false
  | String b t', String a s' => Ascii.eqb a b && startsWith s' t'
  end.

(** [s.substring(n)]: the units from index [n] on; an index past the end
    is clamped to the length. *)
Fixpoint substring_from (n : nat) (s : string) : string :=
  match n, s with
  | O, _ => s
  | S _, EmptyString => EmptyString
  | S n', String _ s' => substring_from n' s'
  end.

(** [s.endsWith(t)]: with [start = s.length - t.length], false when
    [start] is negative, else the comparison of the units of [s] from
    [start] on with [t]. *)
Definition endsWith (s t : string) : bool :=
  let len := String.length s in
  let searchLength := String.length t in
  if (len <? searchLength)%nat then false
  else String.eqb (substring_from (len - searchLength) s) t.

(** White space of [\s] and of [trim]: tab, line feed, vertical tab, form
    feed, carriage return, space and the no-break space. *)
Definition isWhiteSpace (c : ascii) : bool :=
  let n := N_of_ascii c in
  ((9 <=? n) && (n <=? 13) || (n =? 32) || (n =? 160))%N.

Fixpoint trimStart (s : string) : string :=
  match s with
  | EmptyString => EmptyString
  | String c s' => if isWhiteSpace c then trimStart s' else s
  end.

(** Drops the white space at the end: a unit is kept when it is not
    white space or when something is kept after it. *)
Fixpoint trimEnd (s : string) : string :=
  match s with
  | EmptyString => EmptyString
  | String c s' =>
      match trimEnd s' with
      | EmptyString => if isWhiteSpace c then EmptyString
                       else String c EmptyString
      | r => String c r
      end
  end.

(** [s.trim()] *)
Definition trim (s : string) : string := trimEnd (trimStart s).

(** [s.replace(pat, rep)] with a string pattern: the first occurrence
    only. *)
Fixpoint replace (pat rep s : string) : string :=
  if startsWith s pat then rep ++ substring_from (String.length pat) s
  else match s with
       | EmptyString => EmptyString
       | String c s' => String c (replace pat rep s')
       end.

(** Decimal rendering of an integer, as a template literal does. *)
Definition ofZ (z : Z) : string := NilZero.string_of_int (Z.to_int z).
Definition ofNat (n : nat) : string := ofZ (Z.of_nat n).

End JsString.
Import JsString.

(** ** Newsletter detection patterns *)

Definition NEWSLETTER_PATTERNS : list string :=
  [ "*@mail.beehiiv.com";
    "*@substack.com";
    "*@convertkit.com";
    "crew@morningbrew.com";
    "hello@thehustle.co";
    "*@newsletters.feedbinusercontent.com";
    "*@ck.convertkit.com";
    "*@ghost.org" ].

(** [Array.prototype.some]: stops at the first element accepted. *)
Fixpoint some {A : Type} (f : A -> bool) (l : list A) : bool :=
  match l with
  | [] => false
  | x :: l' => if f x then true else some f l'
  end.

(** The callback of [matchesNewsletterPattern]: one address against one
    pattern. *)
Definition matchesPattern (email pattern : string) : bool :=
  if startsWith pattern "*@" then
    let domain := substring_from 2 pattern in
    endsWith (toLowerCase email) (toLowerCase domain)
  else
    String.eqb (toLowerCase email) (toLowerCase pattern).

(** The matcher over a list of patterns. *)
Definition matchesPatterns (patterns : list string) (email : string) : bool :=
  some (matchesPattern email) patterns.

Definition matchesNewsletterPattern (email : string) : bool :=
  matchesPatterns NEWSLETTER_PATTERNS email.

(** ** Extraction of the address from a From header *)

(** The units before the first [>] of [s], when there is one. *)
Fixpoint upToGt (s : string) : option string :=
  match s with
  | EmptyString => None
  | String c s' =>
      if Ascii.eqb c ">" then Some EmptyString
      else option_map (String c) (upToGt s')
  end.

(** [from.match(/<([^>]+)>/)], its group 1: at the leftmost [<] followed by
    one unit or more other than [>] and then by [>], the units between. *)
Fixpoint matchAngle (s : string) : option string :=
  match s with
  | EmptyString => None
  | String c s' =>
      if Ascii.eqb c "<" then
        match upToGt s' with
        | Some (String d g) => Some (String d g)
        | _ => matchAngle s'
        end
      else matchAngle s'
  end.

(** The run of units other than white space at the head of [s]. *)
Fixpoint token (s : string) : string :=
  match s with
  | EmptyString => EmptyString
  | String c s' => if isWhiteSpace c then EmptyString else String c (token s')
  end.

(** An [@] in [s] that is not its last unit. *)
Fixpoint atBeforeLast (s : string) : bool :=
  match s with
  | String c ((String _ _) as s') => Ascii.eqb c "@" || atBeforeLast s'
  | _ => false
  end.

(** [from.match(/([^\s]+@[^\s]+)/)], its group 1: at the leftmost start
    from which one unit or more, an [@] and one unit or more follow, none
    of them white space, the whole run up to the next white space. *)
Fixpoint matchBare (s : string) : option string :=
  match s with
  | EmptyString => None
  | String c s' =>
      if isWhiteSpace c then matchBare s'
      else if atBeforeLast (token s') then Some (String c (token s'))
      else matchBare s'
  end.

(** [emailMatch ? (emailMatch[1] || emailMatch[0]).trim() : from]; group 1
    of either expression is never empty. *)
Definition extractEmail (from : string) : string :=
  match matchAngle from with
  | Some g => trim g
  | None =>
      match matchBare from with
      | Some g => trim g
      | None => from
      end
  end.

(** ** Data exchanged with the provider and the database *)

Record Error := { message : string }.

(** [new Error(msg)] *)
Definition new_Error (msg : string) : Error := {| message := msg |}.

Record Header := { h_name : string; h_value : string }.
Record Payload := { headers : option (list Header) }.
Record MessageSummary := { msg_id : string; msg_threadId : string }.

(** A parsed response body, seen through the properties the program
    reads; [None] is a property that is absent. *)
Record Body := {
  access_token : option string;
  messages : option (list MessageSummary);
  payload : option Payload
}.

(** What [response.json()] settles to. *)
Inductive Parsed :=
| Json (b : Body)
| Malformed (e : Error).

Record Response := { status : Z; statusText : string; json : Parsed }.

(** [response.ok] *)
Definition ok (r : Response) : bool :=
  ((200 <=? status r) && (status r <=? 299))%Z.

Inductive Url :=
| MessagesUrl (q maxResults : string)
| MessageUrl (messageId : string).

Inductive FetchRequest :=
| ApiRequest (url : Url) (authorization : string)
| TokenRequest (client_id client_secret refresh_token : string).

Inductive FetchOutcome :=
| Responded (r : Response)
| Rejected (e : Error).

Record User := { user_id : string }.
Record UserResult := { user : option User; userError : option Error }.
Record AuthData := { stored_access_token : string;
                     stored_refresh_token : string }.
Record TokensResult := { authData : option AuthData;
                         authError : option Error }.
Record Curated := { email_pattern : string; curated_name : string }.

(** What the function does to the outside, in order. *)
Inductive Event :=
| Fetched (req : FetchRequest)
| TokenStored (userId : string) (token : option string) (updated_at : Z)
| UserQueried (jwt : string)
| TokensQueried (userId : string)
| CuratedQueried
| Logged (msg : string)
| LoggedError (msg : string) (e : Error).

(** The outside: the [n]-th [fetch] of a request settles as [network n]
    says, the clock after [n] fetches reads [now n] milliseconds, and the
    database answers each of the three queries. *)
Record Env := {
  network : nat -> FetchRequest -> FetchOutcome;
  now : nat -> Z;
  getUser : string -> UserResult;
  selectTokens : string -> TokensResult;
  selectCurated : option (list Curated);
  getenv : string -> option string;
  stackOf : Error -> string
}.

(** One classified message of the report. *)
Record Detected := {
  messageId : string;
  from : string;
  email : string;
  subject : string;
  date : string;
  matched : bool
}.

(** The variables of one request: the client's access token, and the
    handler's list and counter; with them the number of fetches made and
    the events so far. *)
Record State := {
  fetchCount : nat;
  trace : list Event;
  currentAccessToken : option string;
  detectedNewsletters : list Detected;
  processedCount : nat
}.

Definition initialState : State :=
  {| fetchCount := 0; trace := []; currentAccessToken := None;
     detectedNewsletters := []; processedCount := 0 |}.

(** ** Computations that read and write the state and may throw *)

Inductive Result (A : Type) :=
| Returned (a : A)
| Thrown (e : Error).
Arguments Returned {A} a.
Arguments Thrown {A} e.

Definition M (A : Type) : Type := State -> Result A * State.

Definition ret {A} (a : A) : M A := fun st => (Returned a, st).

Definition bind {A B} (m : M A) (k : A -> M B) : M B :=
  fun st =>
    match m st with
    | (Returned a, st') => k a st'
    | (Thrown e, st') => (Thrown e, st')
    end.

Definition throw {A} (e : Error) : M A := fun st => (Thrown e, st).

Definition tryCatch {A} (m : M A) (handler : Error -> M A) : M A :=
  fun st =>
    match m st with
    | (Returned a, st') => (Returned a, st')
    | (Thrown e, st') => handler e st'
    end.

Declare Scope js_scope.
Delimit Scope js_scope with js.
Notation "x <- m ;; k" := (bind m (fun x => k))
  (at level 61, m at next level, right associativity) : js_scope.
Notation "m ;; k" := (bind m (fun _ => k))
  (at level 61, right associativity) : js_scope.
Open Scope js_scope.

Definition emit (e : Event) : M unit :=
  fun st =>
    (Returned tt,
     {| fetchCount := fetchCount st; trace := trace st ++ [e];
        currentAccessToken := currentAccessToken st;
        detectedNewsletters := detectedNewsletters st;
        processedCount := processedCount st |}).

Definition consoleLog (msg : string) : M unit := emit (Logged msg).
Definition consoleError (msg : string) (e : Error) : M unit :=
  emit (LoggedError msg e).

Definition getToken : M (option string) :=
  fun st => (Returned (currentAccessToken st), st).

Definition setToken (t : option string) : M unit :=
  fun st =>
    (Returned tt,
     {| fetchCount := fetchCount st; trace := trace st;
        currentAccessToken := t;
        detectedNewsletters := detectedNewsletters st;
        processedCount := processedCount st |}).

Definition setDetected (l : list Detected) : M unit :=
  fun st =>
    (Returned tt,
     {| fetchCount := fetchCount st; trace := trace st;
        currentAccessToken := currentAccessToken st;
        detectedNewsletters := l;
        processedCount := processedCount st |}).

Definition setProcessed (n : nat) : M unit :=
  fun st =>
    (Returned tt,
     {| fetchCount := fetchCount st; trace := trace st;
        currentAccessToken := currentAccessToken st;
        detectedNewsletters := detectedNewsletters st;
        processedCount := n |}).

(** [detectedNewsletters.push(d)] *)
Definition pushDetected (d : Detected) : M unit :=
  fun st => setDetected (detectedNewsletters st ++ [d]) st.

(** [processedCount++] *)
Definition incrProcessed : M unit :=
  fun st => setProcessed (S (processedCount st)) st.

(** [for (const x of l) body]: a throw of the body leaves the loop. *)
Fixpoint forOf {A} (l : list A) (body : A -> M unit) : M unit :=
  match l with
  | [] => ret tt
  | x :: l' => body x ;; forOf l' body
  end.

(** [response.json()] *)
Definition readJson (r : Response) : M Body :=
  match json r with
  | Json b => ret b
  | Malformed e => throw e
  end.

(** The text of a token inside a template literal. *)
Definition tokenText (t : option string) : string :=
  match t with
  | Some s => s
  | None => "undefined"
  end.

Definition bearer (t : option string) : string := "Bearer " ++ tokenText t.

(** [x || ''] on the value of an environment variable. *)
Definition orEmpty (x : option string) : string :=
  match x with
  | Some s => s
  | None => EmptyString
  end.

(** ** What the handler answers *)

#[warnings="-register-all"]
Inductive JSON :=
| JNull
| JBool (b : bool)
| JNumber (n : Z)
| JString (s : string)
| JArray (items : list JSON)
| JObject (fields : list (string * JSON)).

(** The value of a property of an object. *)
Fixpoint assoc (k : string) (fields : list (string * JSON)) : option JSON :=
  match fields with
  | [] => None
  | (k', v) :: rest => if String.eqb k' k then Some v else assoc k rest
  end.

Definition field (k : string) (j : JSON) : option JSON :=
  match j with
  | JObject fields => assoc k fields
  | _ => None
  end.

Inductive HttpBody :=
| Text (s : string)
| JsonText (j : JSON).

Record HttpResponse := {
  http_status : Z;
  http_headers : list (string * string);
  http_body : HttpBody
}.

Record Request := {
  method : string;
  authorization : option string
}.

Definition corsHeaders : list (string * string) :=
  [ ("Access-Control-Allow-Origin", "*");
    ("Access-Control-Allow-Headers",
     "authorization, x-client-info, apikey, content-type") ].

Definition jsonResponse (body : JSON) (code : Z) : HttpResponse :=
  {| http_status := code;
     http_headers := corsHeaders ++ [("Content-Type", "application/json")];
     http_body := JsonText body |}.

(** The two marks of the report's labels, outside the range of units of
    this development, in their UTF-8 bytes. *)
Definition CHECK_MARK : string :=
  String "226" (String "156" (String "133" EmptyString)).
Definition WARNING_MARK : string :=
  String "226" (String "154" (String "160"
    (String "239" (String "184" (String "143" EmptyString))))).

Definition detectedJson (d : Detected) : JSON :=
  JObject [ ("messageId", JString (messageId d));
            ("from", JString (from d));
            ("email", JString (email d));
            ("subject", JString (subject d));
            ("date", JString (date d));
            ("matched", JBool (matched d)) ].

Definition curatedJson (n : Curated) : JSON :=
  JObject [ ("pattern", JString (email_pattern n));
            ("name", JString (curated_name n)) ].

Definition needsReauthBody : JSON :=
  JObject [ ("success", JBool false);
            ("error", JString
               "No Gmail tokens found. Please reconnect your Gmail account.");
            ("needsReauth", JBool true) ].

Definition noRecentBody : JSON :=
  JObject [ ("success", JBool true);
            ("message", JString
               "Gmail connection successful, but no recent emails found.");
            ("stats", JObject [ ("totalEmails", JNumber 0);
                                ("newsletters", JNumber 0);
                                ("detectedNewsletters", JArray []) ]) ].

Definition reportBody (totalEmails processed : nat)
    (detected : list Detected) (curated : option (list Curated)) : JSON :=
  JObject
    [ ("success", JBool true);
      ("message", JString "Gmail integration test completed successfully!");
      ("stats", JObject
         [ ("totalEmails", JNumber (Z.of_nat totalEmails));
           ("processedEmails", JNumber (Z.of_nat processed));
           ("detectedNewsletters",
            JNumber (Z.of_nat (List.length detected)));
           ("curatedPatternsCount",
            JNumber (match curated with
                     | Some l => Z.of_nat (List.length l)
                     | None => 0%Z
                     end)) ]);
      ("detectedNewsletters", JArray (map detectedJson detected));
      ("curatedPatterns",
       JArray (match curated with
               | Some l => map curatedJson l
               | None => []
               end));
      ("testResults", JObject
         [ ("gmailApiAccess", JString (CHECK_MARK ++ " Success"));
           ("tokenRefresh", JString (CHECK_MARK ++ " Working"));
           ("emailRetrieval", JString (CHECK_MARK ++ " Working"));
           ("newsletterDetection",
            JString (if (0 <? List.length detected)%nat
                     then CHECK_MARK ++ " Found newsletters"
                     else WARNING_MARK ++ " No newsletters detected")) ]) ].

Definition errorBody (msg stack : string) : JSON :=
  JObject [ ("success", JBool false);
            ("error", JString msg);
            ("stack", JString stack) ].

(** [headers.find(h => h.name === n)?.value || ''] *)
Definition headerValue (n : string) (hs : list Header) : string :=
  match List.find (fun h => String.eqb (h_name h) n) hs with
  | Some h => h_value h
  | None => EmptyString
  end.

(** [fullMessage.payload?.headers || []] *)
Definition payloadHeaders (fullMessage : Body) : list Header :=
  match payload fullMessage with
  | Some p =>
      match headers p with
      | Some hs => hs
      | None => []
      end
  | None => []
  end.

(** The object [createGmailClient] returns. *)
Record GmailClient := {
  listMessages : string -> Z -> M Body;
  getMessage : string -> M Body
}.

(** ** The program *)

Section Program.

Variable env : Env.

(** [fetch(url, init)]: one more call to the outside. *)
Definition fetch (req : FetchRequest) : M Response :=
  fun st =>
    let st' := {| fetchCount := S (fetchCount st);
                  trace := trace st ++ [Fetched req];
                  currentAccessToken := currentAccessToken st;
                  detectedNewsletters := detectedNewsletters st;
                  processedCount := processedCount st |} in
    match network env (fetchCount st) req with
    | Responded r => (Returned r, st')
    | Rejected e => (Thrown e, st')
    end.

(** [new Date()], in milliseconds. *)
Definition dateNow : M Z :=
  fun st => (Returned (now env (fetchCount st)), st).

Section Client.

Variables userId refreshToken : string.

Definition refreshAccessToken : M (option string) :=
  tryCatch
    (response <- fetch (TokenRequest
                          (orEmpty (getenv env "GOOGLE_CLIENT_ID"))
                          (orEmpty (getenv env "GOOGLE_CLIENT_SECRET"))
                          refreshToken) ;;
     if negb (ok response) then
       throw (new_Error "Failed to refresh token")
     else
       (data <- readJson response ;;
        setToken (access_token data) ;;
        token <- getToken ;;
        updated_at <- dateNow ;;
        emit (TokenStored userId token updated_at) ;;
        consoleLog "Successfully refreshed access token" ;;
        getToken))
    (fun error =>
       consoleError "Error refreshing token:" error ;;
       throw error).

(** Every call of the source leaves [options] at its default, so the
    headers are the two of the function itself. *)
Definition makeRequest (url : Url) : M Body :=
  token <- getToken ;;
  response <- fetch (ApiRequest url (bearer token)) ;;
  response <-
    (if (status response =? 401)%Z then
       (consoleLog "Token expired, refreshing..." ;;
        refreshed <- refreshAccessToken ;;
        setToken refreshed ;;
        token' <- getToken ;;
        fetch (ApiRequest url (bearer token')))
     else ret response) ;;
  if negb (ok response) then
    throw (new_Error ("Gmail API error: " ++ ofZ (status response)
                        ++ " " ++ statusText response))
  else readJson response.

End Client.

(** The object with the two methods; both go through [makeRequest]. *)
Definition gmailClient (userId refreshToken : string) : GmailClient :=
  {| listMessages := fun query maxResults =>
       makeRequest userId refreshToken (MessagesUrl query (ofZ maxResults));
     getMessage := fun messageId =>
       makeRequest userId refreshToken (MessageUrl messageId) |}.

Definition createGmailClient (userId accessToken refreshToken : string)
  : M GmailClient :=
  setToken (Some accessToken) ;;
  ret (gmailClient userId refreshToken).

(** The body of the loop over the summaries, with its own [try]. *)
Definition processMessage (gmail : GmailClient) (message : MessageSummary)
  : M unit :=
  tryCatch
    (fullMessage <- getMessage gmail (msg_id message) ;;
     let headers := payloadHeaders fullMessage in
     let from := headerValue "From" headers in
     let subject := headerValue "Subject" headers in
     let dateHeader := headerValue "Date" headers in
     let emailAddress := extractEmail from in
     (if matchesNewsletterPattern emailAddress then
        pushDetected {| messageId := msg_id message;
                        from := from;
                        email := emailAddress;
                        subject := subject;
                        date := dateHeader;
                        matched := true |}
      else ret tt) ;;
     incrProcessed)
    (fun error =>
       consoleError ("Error processing message " ++ msg_id message ++ ":")
                    error).

(** Tests 2 and 3 of the handler: the loop over the first ten summaries,
    the query of the curated list and the report. *)
Definition assembleReport (gmail : GmailClient)
    (found : list MessageSummary) : M HttpResponse :=
  setDetected [] ;;
  setProcessed 0 ;;
  forOf (firstn 10 found) (processMessage gmail) ;;
  emit CuratedQueried ;;
  let curatedNewsletters := selectCurated env in
  detected <- (fun st => (Returned (detectedNewsletters st), st)) ;;
  processed <- (fun st => (Returned (processedCount st), st)) ;;
  ret (jsonResponse
         (reportBody (List.length found) processed detected
                     curatedNewsletters)
         200).

(** The [try] block of the handler.  The day before is taken as 24 hours
    earlier, as in a zone without clock changes. *)
Definition handle (req : Request) : M HttpResponse :=
  authHeader <-
    match authorization req with
    | None | Some EmptyString =>
        throw (new_Error "Missing authorization header")
    | Some h => ret h
    end ;;
  let jwt := replace "Bearer " EmptyString authHeader in
  emit (UserQueried jwt) ;;
  let answer := getUser env jwt in
  match userError answer, user answer with
  | Some _, _ | None, None =>
      throw (new_Error "Invalid or expired token")
  | None, Some user =>
      consoleLog ("Testing Gmail integration for user: " ++ user_id user) ;;
      emit (TokensQueried (user_id user)) ;;
      let stored := selectTokens env (user_id user) in
      match authError stored, authData stored with
      | Some _, _ | None, None => ret (jsonResponse needsReauthBody 200)
      | None, Some authData =>
          gmail <- createGmailClient (user_id user)
                     (stored_access_token authData)
                     (stored_refresh_token authData) ;;
          today <- dateNow ;;
          let yesterday := (today - 86400000)%Z in
          let formattedDate := (yesterday / 1000)%Z in
          consoleLog "Fetching recent emails..." ;;
          recentEmails <- listMessages gmail
                            ("after:" ++ ofZ formattedDate) 20 ;;
          match messages recentEmails with
          | None => ret (jsonResponse noRecentBody 200)
          | Some found =>
              consoleLog ("Found " ++ ofNat (List.length found)
                            ++ " recent emails") ;;
              assembleReport gmail found
          end
      end
  end.

(** The handler given to [serve]. *)
Definition serve (req : Request) (st : State) : HttpResponse * State :=
  if String.eqb (method req) "OPTIONS" then
    ({| http_status := 200; http_headers := corsHeaders;
        http_body := Text "ok" |}, st)
  else
    match handle req st with
    | (Returned response, st') => (response, st')
    | (Thrown error, st') =>
        (jsonResponse (errorBody (message error) (stackOf env error)) 500,
         snd (consoleError "Test function error:" error st'))
    end.

End Program.

(** ** Reading a trace *)

(** The calls to the provider's API, each with its bearer header. *)
Fixpoint apiCalls (evs : list Event) : list (Url * string) :=
  match evs with
  | [] => []
  | Fetched (ApiRequest url auth) :: rest => (url, auth) :: apiCalls rest
  | _ :: rest => apiCalls rest
  end.

(** The exchanges with the token endpoint, each with the refresh token
    sent. *)
Fixpoint tokenExchanges (evs : list Event) : list string :=
  match evs with
  | [] => []
  | Fetched (TokenRequest _ _ refresh) :: rest => refresh :: tokenExchanges rest
  | _ :: rest => tokenExchanges rest
  end.

(** The writes to the credential store: user, token written, time. *)
Fixpoint storeWrites (evs : list Event) : list (string * option string * Z) :=
  match evs with
  | [] => []
  | TokenStored u t at_ :: rest => (u, t, at_) :: storeWrites rest
  | _ :: rest => storeWrites rest
  end.

(** The errors logged, each with the text logged before it. *)
Fixpoint errorsLogged (evs : list Event) : list (string * Error) :=
  match evs with
  | [] => []
  | LoggedError msg e :: rest => (msg, e) :: errorsLogged rest
  | _ :: rest => errorsLogged rest
  end.

(** The two failures of the client, as the source words them. *)
Definition RefreshFailure : Error :=
  new_Error "Failed to refresh token".

Definition ApiFailure (code : Z) (text : string) : Error :=
  new_Error ("Gmail API error: " ++ ofZ code ++ " " ++ text).

(** The request the client sends to the token endpoint. *)
Definition tokenRequest (env : Env) (refreshToken : string) : FetchRequest :=
  TokenRequest (orEmpty (getenv env "GOOGLE_CLIENT_ID"))
               (orEmpty (getenv env "GOOGLE_CLIENT_SECRET"))
               refreshToken.

(** ** Relating the states around a computation *)

(** [m] moves every state to one related to it by [R]. *)
Definition within (R : State -> State -> Prop) {A} (m : M A) : Prop :=
  forall st, R st (snd (m st)).

(** The list and the counter of the handler are as they were. *)
Definition sameCounts (st st' : State) : Prop :=
  detectedNewsletters st' = detectedNewsletters st
  /\ processedCount st' = processedCount st.

(** What the loop adds to the list for a message whose detail is
    [fullMessage]: its entry when the sender matches, nothing otherwise. *)
Definition classified (message : MessageSummary) (fullMessage : Body)
  : list Detected :=
  let sender := headerValue "From" (payloadHeaders fullMessage) in
  if matchesNewsletterPattern (extractEmail sender) then
    [ {| messageId := msg_id message;
         from := sender;
         email := extractEmail sender;
         subject := headerValue "Subject" (payloadHeaders fullMessage);
         date := headerValue "Date" (payloadHeaders fullMessage);
         matched := true |} ]
  else [].

(** An entry as the report promises it. *)
Definition wellClassified (d : Detected) : Prop :=
  matched d = true
  /\ email d = extractEmail (from d)
  /\ matchesNewsletterPattern (email d) = true.

(** ** The run of the loop *)

(** The outcome of the detail call of each summary of a batch, in the
    state in which the loop makes it: the call for the first summary is
    made in [st], the next in the state the body of the loop leaves. *)
Fixpoint detailOutcomes (gmail : GmailClient) (batch : list MessageSummary)
    (st : State) : list (MessageSummary * Result Body) :=
  match batch with
  | [] => []
  | m :: rest =>
      (m, fst (getMessage gmail (msg_id m) st))
      :: detailOutcomes gmail rest (snd (processMessage gmail m st))
  end.

(** The summaries whose detail arrived, each with its detail. *)
Fixpoint delivered (outcomes : list (MessageSummary * Result Body))
  : list (MessageSummary * Body) :=
  match outcomes with
  | [] => []
  | (m, Returned b) :: rest => (m, b) :: delivered rest
  | (_, Thrown _) :: rest => delivered rest
  end.

(** The summaries whose detail call threw, each with what was thrown. *)
Fixpoint failed (outcomes : list (MessageSummary * Result Body))
  : list (MessageSummary * Error) :=
  match outcomes with
  | [] => []
  | (_, Returned _) :: rest => failed rest
  | (m, Thrown e) :: rest => (m, e) :: failed rest
  end.

(** What the loop lists for the summaries whose detail arrived. *)
Definition classifiedAll (arrived : list (MessageSummary * Body))
  : list Detected :=
  flat_map (fun mb => classified (fst mb) (snd mb)) arrived.

(** The state in which the loop starts: the list empty and the counter at
    zero. *)
Definition resetCounts (st : State) : State :=
  {| fetchCount := fetchCount st; trace := trace st;
     currentAccessToken := currentAccessToken st;
     detectedNewsletters := []; processedCount := 0 |}.

(** ** Statements of the specification that the program does not meet *)

(** C2, as the spec states it: a matched address would end with [@]
    followed by the domain. *)
Definition wildcard_needs_at_sign : Prop :=
  forall addr d : string,
    matchesPattern addr ("*@" ++ d) = true ->
    exists p, toLowerCase addr = p ++ toLowerCase ("@" ++ d).

(** C3, as the spec states it: after a 401 and a refresh, a call made
    again and answered 2xx would always complete. *)
Definition retry_answered_2xx_always_completes : Prop :=
  forall (env : Env) (userId refreshToken : string) (url : Url) (st : State)
         (r1 r2 r3 : Response) (data : Body),
    network env (fetchCount st)
            (ApiRequest url (bearer (currentAccessToken st))) = Responded r1 ->
    status r1 = 401%Z ->
    network env (S (fetchCount st)) (tokenRequest env refreshToken)
      = Responded r2 ->
    ok r2 = true ->
    json r2 = Json data ->
    network env (S (S (fetchCount st)))
            (ApiRequest url (bearer (access_token data))) = Responded r3 ->
    ok r3 = true ->
    exists (b : Body) (st' : State),
      makeRequest env userId refreshToken url st = (Returned b, st').

(** C5, as the spec states it: a run in which a refresh was refused,
    on whichever call, would end in a 500 response. *)
Definition refused_refresh_always_500 : Prop :=
  forall (env : Env) (req : Request),
    In ("Error refreshing token:", RefreshFailure)
       (errorsLogged (trace (snd (serve env req initialState)))) ->
    http_status (fst (serve env req initialState)) = 500%Z.

(** The URL of the listing the handler asks for, when the clock reads
    [today]. *)
Definition recentUrl (today : Z) : Url :=
  MessagesUrl ("after:" ++ ofZ ((today - 86400000) / 1000)) (ofZ 20).

(** ** Sample worlds *)

Module Samples.

Definition emptyBody : Body :=
  {| access_token := None; messages := None; payload := None |}.

Definition okResponse (b : Body) : Response :=
  {| status := 200; statusText := "OK"; json := Json b |}.

Definition failure (code : Z) (text : string) : Response :=
  {| status := code; statusText := text; json := Json emptyBody |}.

Definition tokenBody (t : string) : Body :=
  {| access_token := Some t; messages := None; payload := None |}.

Definition summary (i : string) : MessageSummary :=
  {| msg_id := i; msg_threadId := "t-" ++ i |}.

Definition tenSummaries : list MessageSummary :=
  map summary ["m1"; "m2"; "m3"; "m4"; "m5"; "m6"; "m7"; "m8"; "m9"; "m10"].

Definition listBody : Body :=
  {| access_token := None; messages := Some tenSummaries; payload := None |}.

(** The sender of each sample message. *)
Definition senderOf (i : string) : string :=
  if String.eqb i "m1" then "Morning Brew <crew@morningbrew.com>"
  else if String.eqb i "m2" then "alice@example.com"
  else if String.eqb i "m3" then "Daily <Hi@Mail.Beehiiv.com>"
  else if String.eqb i "m5" then "writer@substack.com"
  else if String.eqb i "m6" then "Ghost <team@ghost.org>"
  else if String.eqb i "m9" then "from bob@notmail.beehiiv.com today"
  else "Carol <carol@example.org>".

Definition detailBody (i : string) : Body :=
  {| access_token := None; messages := None;
     payload := Some {| headers := Some
       [ {| h_name := "Subject"; h_value := "Issue " ++ i |};
         {| h_name := "From"; h_value := senderOf i |};
         {| h_name := "Date"; h_value := "Mon, 2 Jun 2025 08:00:00 +0000" |} ]
     |} |}.

Definition answer (url : Url) : Response :=
  match url with
  | MessagesUrl _ _ => okResponse listBody
  | MessageUrl i => okResponse (detailBody i)
  end.

Definition theUser : User := {| user_id := "user-1" |}.

Definition knownUser (jwt : string) : UserResult :=
  if String.eqb jwt "good-jwt"
  then {| user := Some theUser; userError := None |}
  else {| user := None;
          userError := Some (new_Error "invalid JWT") |}.

Definition storedTokens (u : string) : TokensResult :=
  if String.eqb u "user-1"
  then {| authData := Some {| stored_access_token := "old-token";
                              stored_refresh_token := "refresh-1" |};
          authError := None |}
  else {| authData := None; authError := Some (new_Error "no rows") |}.

Definition nothingStored (u : string) : TokensResult :=
  {| authData := None; authError := Some (new_Error "no rows") |}.

Definition world (net : nat -> FetchRequest -> FetchOutcome)
    (tokens : string -> TokensResult) : Env :=
  {| network := net;
     now := fun n => (1748851200000 + 1000 * Z.of_nat n)%Z;
     getUser := knownUser;
     selectTokens := tokens;
     selectCurated := Some [ {| email_pattern := "*@substack.com";
                                curated_name := "Substack" |} ];
     getenv := fun k => if String.eqb k "GOOGLE_CLIENT_ID"
                        then Some "client-1" else None;
     stackOf := fun e => "Error: " ++ message e |}.

(** The stored access token has expired: the API refuses it and accepts
    the one the token endpoint hands out. *)
Definition expiredToken : Env :=
  world (fun _ req =>
           match req with
           | ApiRequest url auth =>
               if String.eqb auth "Bearer new-token"
               then Responded (answer url)
               else Responded (failure 401 "Unauthorized")
           | TokenRequest _ _ _ =>
               Responded (okResponse (tokenBody "new-token"))
           end)
        storedTokens.

(** The API refuses every token. *)
Definition revokedAccess : Env :=
  world (fun _ req =>
           match req with
           | ApiRequest _ _ => Responded (failure 401 "Unauthorized")
           | TokenRequest _ _ _ =>
               Responded (okResponse (tokenBody "new-token"))
           end)
        storedTokens.

(** The listing is served; every detail call is refused with a 401 and
    the token endpoint refuses the refresh token. *)
Definition refusedRefresh : Env :=
  world (fun _ req =>
           match req with
           | ApiRequest (MessagesUrl _ _) _ => Responded (okResponse listBody)
           | ApiRequest (MessageUrl _) _ =>
               Responded (failure 401 "Unauthorized")
           | TokenRequest _ _ _ => Responded (failure 400 "Bad Request")
           end)
        storedTokens.

(** The listing is refused with a 401 and the token endpoint refuses the
    refresh token. *)
Definition refusedRefreshOnList : Env :=
  world (fun _ req =>
           match req with
           | ApiRequest _ _ => Responded (failure 401 "Unauthorized")
           | TokenRequest _ _ _ => Responded (failure 400 "Bad Request")
           end)
        storedTokens.

(** Everything is served except the detail of the fifth message, whose
    fetch is rejected. *)
Definition fifthFails : Env :=
  world (fun _ req =>
           match req with
           | ApiRequest (MessageUrl i) _ =>
               if String.eqb i "m5"
               then Rejected (new_Error "connection reset")
               else Responded (answer (MessageUrl i))
           | ApiRequest url _ => Responded (answer url)
           | TokenRequest _ _ _ => Responded (failure 400 "Bad Request")
           end)
        storedTokens.

(** The stored token has expired; with the new token the API answers 200
    with a body that is not JSON. *)
Definition unreadableRetry : Env :=
  world (fun _ req =>
           match req with
           | ApiRequest url auth =>
               if String.eqb auth "Bearer new-token"
               then Responded
                      {| status := 200; statusText := "OK";
                         json := Malformed
                                   (new_Error "Unexpected end of JSON input")
                      |}
               else Responded (failure 401 "Unauthorized")
           | TokenRequest _ _ _ =>
               Responded (okResponse (tokenBody "new-token"))
           end)
        storedTokens.

(** The fetch after four others is rejected, whatever it asks for; every
    other call is served. *)
Definition fifthCallFails : Env :=
  world (fun n req =>
           if Nat.eqb n 4 then Rejected (new_Error "connection reset")
           else match req with
                | ApiRequest url _ => Responded (answer url)
                | TokenRequest _ _ _ => Responded (failure 400 "Bad Request")
                end)
        storedTokens.

(** The user is known and has no stored tokens. *)
Definition neverConnected : Env :=
  world (fun _ _ => Rejected (new_Error "unreachable")) nothingStored.

Definition goodRequest : Request :=
  {| method := "POST"; authorization := Some "Bearer good-jwt" |}.

(** The state in which the client of the sample user makes its first
    call. *)
Definition beforeCall : State :=
  {| fetchCount := 0; trace := []; currentAccessToken := Some "old-token";
     detectedNewsletters := []; processedCount := 0 |}.

End Samples.

(** ** Notions for the further properties *)

(** The unit [c] occurs in [s]. *)
Fixpoint occurs (c : ascii) (s : string) : bool :=
  match s with
  | EmptyString => false
  | String a s' => Ascii.eqb a c || occurs c s'
  end.

(** Some unit of [s] is white space. *)
Fixpoint hasWhiteSpace (s : string) : bool :=
  match s with
  | EmptyString => false
  | String a s' => isWhiteSpace a || hasWhiteSpace s'
  end.

(** The state in which the handler makes the listing call: the user and
    the stored tokens have been looked up, and the client holds the stored
    access token. *)
Definition listingState (st : State) (jwt : string) (u : User)
    (a : AuthData) : State :=
  {| fetchCount := fetchCount st;
     trace := trace st
              ++ [ UserQueried jwt;
                   Logged ("Testing Gmail integration for user: "
                             ++ user_id u);
                   TokensQueried (user_id u);
                   Logged "Fetching recent emails..." ];
     currentAccessToken := Some (stored_access_token a);
     detectedNewsletters := detectedNewsletters st;
     processedCount := processedCount st |}.

(** What the handler does with the answer of the listing call. *)
Definition afterListing (env : Env) (gmail : GmailClient)
    (recentEmails : Body) : M HttpResponse :=
  match messages recentEmails with
  | None => ret (jsonResponse noRecentBody 200)
  | Some found =>
      consoleLog ("Found " ++ ofNat (List.length found) ++ " recent emails") ;;
      assembleReport env gmail found
  end.

(** The program's list of patterns without its seventh entry. *)
Definition PATTERNS_WITHOUT_CK : list string :=
  [ "*@mail.beehiiv.com";
    "*@substack.com";
    "*@convertkit.com";
    "crew@morningbrew.com";
    "hello@thehustle.co";
    "*@newsletters.feedbinusercontent.com";
    "*@ghost.org" ].

Module MoreSamples.

(** Every call is served with the stored token; the listing has the ten
    sample messages. *)
Definition allServed : Env :=
  Samples.world
    (fun _ req =>
       match req with
       | ApiRequest url _ => Responded (Samples.answer url)
       | TokenRequest _ _ _ => Responded (Samples.failure 400 "Bad Request")
       end)
    Samples.storedTokens.

(** The API answers every call with a 503. *)
Definition apiDown : Env :=
  Samples.world
    (fun _ req =>
       match req with
       | ApiRequest _ _ =>
           Responded (Samples.failure 503 "Service Unavailable")
       | TokenRequest _ _ _ =>
           Responded (Samples.okResponse (Samples.tokenBody "new-token"))
       end)
    Samples.storedTokens.

(** The stored token has expired and the token endpoint cannot be
    reached. *)
Definition tokenEndpointDown : Env :=
  Samples.world
    (fun _ req =>
       match req with
       | ApiRequest _ _ => Responded (Samples.failure 401 "Unauthorized")
       | TokenRequest _ _ _ => Rejected (new_Error "connection refused")
       end)
    Samples.storedTokens.

(** The listing is served without a [messages] property. *)
Definition quietInbox : Env :=
  Samples.world
    (fun _ _ => Responded (Samples.okResponse Samples.emptyBody))
    Samples.storedTokens.

(** The listing is served with an empty [messages] array. *)
Definition emptyListing : Env :=
  Samples.world
    (fun _ _ =>
       Responded (Samples.okResponse
                    {| access_token := None; messages := Some [];
                       payload := None |}))
    Samples.storedTokens.

Definition storedSample : AuthData :=
  {| stored_access_token := "old-token";
     stored_refresh_token := "refresh-1" |}.

Definition noHeaderRequest : Request :=
  {| method := "POST"; authorization := None |}.

Definition badTokenRequest : Request :=
  {| method := "POST"; authorization := Some "Bearer forged" |}.

(** Twelve summaries, two more than the loop looks at. *)
Definition twelveSummaries : list MessageSummary :=
  (Samples.tenSummaries
     ++ [Samples.summary "m11"; Samples.summary "m12"])%list.

(** A detail without a From header: only a lower-case [from]. *)
Definition unsignedBody : Body :=
  {| access_token := None; messages := None;
     payload := Some {| headers := Some
       [ {| h_name := "from"; h_value := "crew@morningbrew.com" |};
         {| h_name := "Subject"; h_value := "Hello" |} ] |} |}.

Definition unsignedWorld : Env :=
  Samples.world
    (fun _ _ => Responded (Samples.okResponse unsignedBody))
    Samples.storedTokens.

End MoreSamples.

(** * Properties *)

(** ** Strings *)

Section StringFacts.

Lemma append_empty_r (s : string) : s ++ EmptyString = s.
Proof. induction s as [|c s IH]; simpl; [reflexivity | now rewrite IH]. Qed.

Lemma length_append (s t : string) :
  String.length (s ++ t) = String.length s + String.length t.
Proof. induction s as [|c s IH]; simpl; [reflexivity | now rewrite IH]. Qed.

Lemma substring_from_append (p t : string) :
  substring_from (String.length p) (p ++ t) = t.
Proof. induction p as [|c p IH]; simpl; [reflexivity | exact IH]. Qed.

(** Cutting at [n] splits the string into what is dropped and what is
    kept. *)
Lemma substring_from_split (n : nat) (s : string) :
  n <= String.length s ->
  exists p, s = p ++ substring_from n s /\ String.length p = n.
Proof.
  revert s; induction n as [|n IH]; intros s Hn.
  - exists EmptyString; split; reflexivity.
  - destruct s as [|c s]; simpl in Hn; [lia|].
    destruct (IH s) as [p [Hp Hl]]; [lia|].
    exists (String c p); simpl; split; [now rewrite <- Hp | now rewrite Hl].
Qed.

(** [endsWith] decides the suffix relation. *)
Lemma endsWith_suffix (s t : string) :
  endsWith s t = true <-> exists p, s = p ++ t.
Proof.
  unfold endsWith; split.
  - destruct (Nat.ltb_spec (String.length s) (String.length t)) as [Hlt|Hle];
      [discriminate|].
    intros Heq; apply String.eqb_eq in Heq.
    destruct (substring_from_split (String.length s - String.length t) s)
      as [p [Hp _]]; [lia|].
    exists p; now rewrite Heq in Hp.
  - intros [p ->].
    rewrite length_append.
    destruct (Nat.ltb_spec (String.length p + String.length t)
                           (String.length t)) as [Hlt|Hle]; [lia|].
    replace (String.length p + String.length t - String.length t)
      with (String.length p) by lia.
    rewrite substring_from_append; apply String.eqb_refl.
Qed.

Lemma toLowerCase_append (s t : string) :
  toLowerCase (s ++ t) = toLowerCase s ++ toLowerCase t.
Proof. induction s as [|c s IH]; simpl; [reflexivity | now rewrite IH]. Qed.

Lemma startsWith_append (p s : string) : startsWith (p ++ s) p = true.
Proof.
  induction p as [|c p IH]; simpl; [reflexivity|].
  now rewrite Ascii.eqb_refl, IH.
Qed.

Lemma startsWith_split (s p : string) :
  startsWith s p = true -> s = p ++ substring_from (String.length p) s.
Proof.
  revert s; induction p as [|c p IH]; intros s H; simpl in *.
  - reflexivity.
  - destruct s as [|a s]; [discriminate|].
    apply andb_true_iff in H; destruct H as [Hc Hs].
    apply Ascii.eqb_eq in Hc; subst a.
    simpl; f_equal; now apply IH.
Qed.

End StringFacts.

(** ** The matcher *)

Lemma some_exists {A} (f : A -> bool) (l : list A) :
  some f l = true <-> exists x, In x l /\ f x = true.
Proof.
  induction l as [|x l IH]; simpl.
  - split; [discriminate | intros [x [[] _]]].
  - destruct (f x) eqn:Hx.
    + split; [intros _; exists x; auto | reflexivity].
    + rewrite IH; split.
      * intros [y [Hy Hf]]; exists y; auto.
      * intros [y [[->|Hy] Hf]]; [congruence | exists y; auto].
Qed.

Lemma matchesPattern_wildcard (addr d : string) :
  matchesPattern addr ("*@" ++ d)
  = endsWith (toLowerCase addr) (toLowerCase d).
Proof. reflexivity. Qed.

(** C1: an address matches the wildcard pattern [*@d] exactly when its
    lower-cased form ends with the lower-cased [d], the text after the
    [@]; so [notmail.beehiiv.com] matches [*@mail.beehiiv.com], as a
    single pattern and through the list of the program. *)
Theorem wildcard_matches_iff_suffix :
  (forall addr d : string,
      matchesPattern addr ("*@" ++ d) = true
      <-> exists p, toLowerCase addr = p ++ toLowerCase d)
  /\ matchesPattern "notmail.beehiiv.com" "*@mail.beehiiv.com" = true
  /\ matchesPattern "a@mail.beehiiv.com" "*@mail.beehiiv.com" = true
  /\ matchesNewsletterPattern "notmail.beehiiv.com" = true.
Proof.
  split; [|repeat split; reflexivity].
  intros addr d.
  rewrite matchesPattern_wildcard.
  apply endsWith_suffix.
Qed.

(** C2 fails: [notmail.beehiiv.com] matches [*@mail.beehiiv.com] and does
    not end with [@mail.beehiiv.com]; it has no [@] at all. *)
Lemma wildcard_needs_at_sign_fails :
  matchesPattern "notmail.beehiiv.com" "*@mail.beehiiv.com" = true
  /\ endsWith (toLowerCase "notmail.beehiiv.com")
              (toLowerCase "@mail.beehiiv.com") = false
  /\ ~ wildcard_needs_at_sign.
Proof.
  split; [reflexivity | split; [reflexivity|]].
  intros H.
  specialize (H "notmail.beehiiv.com" "mail.beehiiv.com" eq_refl).
  apply endsWith_suffix in H.
  discriminate H.
Qed.

(** C2, amended: the suffix tested is the domain without the [@].  An
    address is matched exactly when its lower-cased form ends with the
    lower-cased domain: so every address ending with [@] and the domain
    is matched, and so is every address that ends with the bare domain
    text, with or without an [@] before it. *)
Theorem wildcard_tests_bare_domain (addr d : string) :
  (matchesPattern addr ("*@" ++ d) = true
   <-> exists p, toLowerCase addr = p ++ toLowerCase d)
  /\ ((exists p, toLowerCase addr = p ++ toLowerCase ("@" ++ d)) ->
      matchesPattern addr ("*@" ++ d) = true)
  /\ (forall p, matchesPattern (p ++ d) ("*@" ++ d) = true).
Proof.
  rewrite matchesPattern_wildcard; split; [|split].
  - apply endsWith_suffix.
  - intros [p Hp]; apply endsWith_suffix.
    exists (p ++ "@"). rewrite Hp; simpl.
    clear Hp; induction p as [|c p IH]; simpl; [reflexivity | now rewrite IH].
  - intros p; rewrite matchesPattern_wildcard; apply endsWith_suffix.
    exists (toLowerCase p); apply toLowerCase_append.
Qed.

Lemma wildcard_tests_bare_domain_witness :
  matchesPattern "News@Mail.Beehiiv.com" "*@mail.beehiiv.com" = true
  /\ matchesPattern "notmail.beehiiv.com" "*@mail.beehiiv.com" = true.
Proof.
  split.
  - apply (wildcard_tests_bare_domain "News@Mail.Beehiiv.com"
             "mail.beehiiv.com").
    exists "news"; reflexivity.
  - apply (proj1 (wildcard_tests_bare_domain "notmail.beehiiv.com"
                    "mail.beehiiv.com")).
    exists "not"; reflexivity.
Defined.

(** C7: for a pattern that does not start with [*@], the matcher compares
    the two lower-cased strings for equality. *)
Theorem exact_matches_iff_equal (addr p : string) :
  startsWith p "*@" = false ->
  matchesPattern addr p = String.eqb (toLowerCase addr) (toLowerCase p)
  /\ (matchesPattern addr p = true <-> toLowerCase addr = toLowerCase p).
Proof.
  intros Hp; unfold matchesPattern; rewrite Hp; split.
  - reflexivity.
  - apply String.eqb_eq.
Qed.

Lemma exact_matches_iff_equal_witness :
  matchesPattern "Crew@MorningBrew.com" "crew@morningbrew.com" = true
  <-> toLowerCase "Crew@MorningBrew.com" = toLowerCase "crew@morningbrew.com".
Proof.
  apply (exact_matches_iff_equal "Crew@MorningBrew.com" "crew@morningbrew.com").
  reflexivity.
Defined.

(** C8: over a list of patterns the matcher is the disjunction of the
    single matches; it is false on the empty list, and a reordering of the
    list does not change it. *)
Theorem matcher_is_disjunction (patterns patterns' : list string)
    (addr : string) :
  Permutation patterns patterns' ->
  (matchesPatterns patterns addr = true
   <-> exists p, In p patterns /\ matchesPattern addr p = true)
  /\ matchesPatterns [] addr = false
  /\ matchesPatterns patterns addr = matchesPatterns patterns' addr.
Proof.
  intros Hperm; unfold matchesPatterns.
  split; [apply some_exists | split; [reflexivity|]].
  apply eq_true_iff_eq.
  rewrite !some_exists.
  split; intros [p [Hin Hm]]; exists p; split; auto.
  - now apply (Permutation_in _ Hperm).
  - now apply (Permutation_in _ (Permutation_sym Hperm)).
Qed.

Lemma matcher_is_disjunction_witness :
  matchesPatterns ["*@ghost.org"; "hello@thehustle.co"] "Hello@TheHustle.co"
  = matchesPatterns ["hello@thehustle.co"; "*@ghost.org"] "Hello@TheHustle.co".
Proof.
  apply (matcher_is_disjunction
           ["*@ghost.org"; "hello@thehustle.co"]
           ["hello@thehustle.co"; "*@ghost.org"] "Hello@TheHustle.co").
  apply perm_swap.
Defined.

(** ** The client *)

(** The two calls of the client are requests, to the listing and to one
    message. *)
Lemma client_calls_are_requests (env : Env) (userId refreshToken : string) :
  (forall query maxResults,
      listMessages (gmailClient env userId refreshToken) query maxResults
      = makeRequest env userId refreshToken
          (MessagesUrl query (ofZ maxResults)))
  /\ (forall messageId,
         getMessage (gmailClient env userId refreshToken) messageId
         = makeRequest env userId refreshToken (MessageUrl messageId)).
Proof. split; reflexivity. Qed.

(** C3 fails: in the sample world where the token has expired and the
    call made again is answered 200 with a body that is not JSON, the
    request throws what reading the body throws, after the refresh and
    its one write to the store. *)
Lemma retry_answered_2xx_always_completes_fails :
  fst (makeRequest Samples.unreadableRetry "user-1" "refresh-1"
         (MessageUrl "m1") Samples.beforeCall)
  = Thrown (new_Error "Unexpected end of JSON input")
  /\ apiCalls (trace (snd (makeRequest Samples.unreadableRetry "user-1"
                             "refresh-1" (MessageUrl "m1")
                             Samples.beforeCall)))
     = [ (MessageUrl "m1", "Bearer old-token");
         (MessageUrl "m1", "Bearer new-token") ]
  /\ List.length
       (storeWrites (trace (snd (makeRequest Samples.unreadableRetry "user-1"
                                   "refresh-1" (MessageUrl "m1")
                                   Samples.beforeCall)))) = 1
  /\ ~ retry_answered_2xx_always_completes.
Proof.
  split; [reflexivity|]. split; [reflexivity|]. split; [reflexivity|].
  intros H.
  destruct (H Samples.unreadableRetry "user-1" "refresh-1" (MessageUrl "m1")
              Samples.beforeCall
              (Samples.failure 401 "Unauthorized")
              (Samples.okResponse (Samples.tokenBody "new-token"))
              {| status := 200; statusText := "OK";
                 json := Malformed (new_Error "Unexpected end of JSON input")
              |}
              (Samples.tokenBody "new-token")
              eq_refl eq_refl eq_refl eq_refl eq_refl eq_refl eq_refl)
    as [b [st' Hrun]].
  discriminate Hrun.
Qed.

(** C3, amended: when the first response is a 401, the exchange at the
    token endpoint succeeds and the call made again is answered with a
    2xx response, the request returns the body of that response when it
    can be read as JSON, and throws what reading it throws otherwise.  In
    both cases the second call bears the token just obtained, and the
    store is written once, with that token and the time of the write. *)
Theorem refresh_then_retry_succeeds
    (env : Env) (userId refreshToken : string) (url : Url) (st : State)
    (r1 r2 r3 : Response) (data : Body) :
  network env (fetchCount st)
          (ApiRequest url (bearer (currentAccessToken st))) = Responded r1 ->
  status r1 = 401%Z ->
  network env (S (fetchCount st)) (tokenRequest env refreshToken)
    = Responded r2 ->
  ok r2 = true ->
  json r2 = Json data ->
  network env (S (S (fetchCount st)))
          (ApiRequest url (bearer (access_token data))) = Responded r3 ->
  ok r3 = true ->
  exists (st' : State) (evs : list Event),
    makeRequest env userId refreshToken url st
    = (match json r3 with
       | Json b => Returned b
       | Malformed e => Thrown e
       end, st')
    /\ trace st' = (trace st ++ evs)%list
    /\ apiCalls evs = [ (url, bearer (currentAccessToken st));
                        (url, bearer (access_token data)) ]
    /\ tokenExchanges evs = [refreshToken]
    /\ storeWrites evs
       = [ (userId, access_token data, now env (S (S (fetchCount st)))) ]
    /\ currentAccessToken st' = access_token data.
Proof.
  intros H1 Hs1 H2 Hok2 Hj2 H3 Hok3.
  unfold tokenRequest in H2.
  unfold makeRequest, refreshAccessToken, bind, tryCatch, fetch, getToken.
  simpl. rewrite H1. simpl. rewrite Hs1. simpl.
  rewrite H2. simpl. rewrite Hok2. simpl.
  unfold readJson. rewrite Hj2. simpl.
  rewrite H3. simpl. rewrite Hok3. simpl.
  destruct (json r3); simpl;
    (eexists; eexists; split; [reflexivity|]);
    simpl; rewrite <- !app_assoc; simpl;
    (split; [reflexivity|]);
    repeat split; reflexivity.
Qed.

(** C4: when the first response is a 401, the exchange at the token
    endpoint succeeds and the call made again is answered outside 2xx (a
    401 again, or any other such status), the request throws the API error
    with the status and status text of that second response; there has
    been one exchange at the token endpoint and two calls, no more. *)
Theorem retry_failure_is_final
    (env : Env) (userId refreshToken : string) (url : Url) (st : State)
    (r1 r2 r3 : Response) (data : Body) :
  network env (fetchCount st)
          (ApiRequest url (bearer (currentAccessToken st))) = Responded r1 ->
  status r1 = 401%Z ->
  network env (S (fetchCount st)) (tokenRequest env refreshToken)
    = Responded r2 ->
  ok r2 = true ->
  json r2 = Json data ->
  network env (S (S (fetchCount st)))
          (ApiRequest url (bearer (access_token data))) = Responded r3 ->
  ok r3 = false ->
  exists (st' : State) (evs : list Event),
    makeRequest env userId refreshToken url st
    = (Thrown (ApiFailure (status r3) (statusText r3)), st')
    /\ trace st' = (trace st ++ evs)%list
    /\ apiCalls evs = [ (url, bearer (currentAccessToken st));
                        (url, bearer (access_token data)) ]
    /\ tokenExchanges evs = [refreshToken]
    /\ fetchCount st' = 3 + fetchCount st.
Proof.
  intros H1 Hs1 H2 Hok2 Hj2 H3 Hok3.
  unfold tokenRequest in H2.
  unfold makeRequest, refreshAccessToken, bind, tryCatch, fetch, getToken.
  simpl. rewrite H1. simpl. rewrite Hs1. simpl.
  rewrite H2. simpl. rewrite Hok2. simpl.
  unfold readJson. rewrite Hj2. simpl.
  rewrite H3. simpl. rewrite Hok3. simpl.
  eexists. eexists. split; [reflexivity|].
  simpl. rewrite <- !app_assoc. simpl.
  repeat split; reflexivity.
Qed.

(** A refresh refused by the token endpoint makes the request throw, for
    any call: nothing is written to the store and the call is not made
    again. *)
Lemma refused_refresh_throws
    (env : Env) (userId refreshToken : string) (url : Url) (st : State)
    (r1 r2 : Response) :
  network env (fetchCount st)
          (ApiRequest url (bearer (currentAccessToken st))) = Responded r1 ->
  status r1 = 401%Z ->
  network env (S (fetchCount st)) (tokenRequest env refreshToken)
    = Responded r2 ->
  ok r2 = false ->
  exists (st' : State) (evs : list Event),
    makeRequest env userId refreshToken url st = (Thrown RefreshFailure, st')
    /\ trace st' = (trace st ++ evs)%list
    /\ apiCalls evs = [ (url, bearer (currentAccessToken st)) ]
    /\ storeWrites evs = []
    /\ errorsLogged evs = [ ("Error refreshing token:", RefreshFailure) ]
    /\ detectedNewsletters st' = detectedNewsletters st
    /\ processedCount st' = processedCount st.
Proof.
  intros H1 Hs1 H2 Hok2.
  unfold tokenRequest in H2.
  unfold makeRequest, refreshAccessToken, bind, tryCatch, fetch, getToken.
  simpl. rewrite H1. simpl. rewrite Hs1. simpl.
  rewrite H2. simpl. rewrite Hok2. simpl.
  eexists. eexists. split; [reflexivity|].
  simpl. rewrite <- !app_assoc. simpl.
  repeat split; reflexivity.
Qed.

(** ** States around a computation *)

Section Within.

Variable R : State -> State -> Prop.
Hypothesis R_refl : forall st, R st st.
Hypothesis R_trans : forall a b c, R a b -> R b c -> R a c.

Lemma within_ret {A} (a : A) : within R (ret a).
Proof. intros st; apply R_refl. Qed.

Lemma within_throw {A} (e : Error) : within R (@throw A e).
Proof. intros st; apply R_refl. Qed.

Lemma within_bind {A B} (m : M A) (k : A -> M B) :
  within R m -> (forall a, within R (k a)) -> within R (bind m k).
Proof.
  intros Hm Hk st; unfold bind.
  specialize (Hm st); destruct (m st) as [[a|e] st1]; simpl in *.
  - eapply R_trans; [exact Hm | apply Hk].
  - exact Hm.
Qed.

Lemma within_tryCatch {A} (m : M A) (h : Error -> M A) :
  within R m -> (forall e, within R (h e)) -> within R (tryCatch m h).
Proof.
  intros Hm Hh st; unfold tryCatch.
  specialize (Hm st); destruct (m st) as [[a|e] st1]; simpl in *.
  - exact Hm.
  - eapply R_trans; [exact Hm | apply Hh].
Qed.

Lemma within_readJson (r : Response) : within R (readJson r).
Proof.
  unfold readJson; destruct (json r); [apply within_ret | apply within_throw].
Qed.

Lemma within_getToken : within R getToken.
Proof. intros st; apply R_refl. Qed.

End Within.

Lemma sameCounts_refl (st : State) : sameCounts st st.
Proof. split; reflexivity. Qed.

Lemma sameCounts_trans (a b c : State) :
  sameCounts a b -> sameCounts b c -> sameCounts a c.
Proof. intros [H1 H2] [H3 H4]; split; congruence. Qed.

Lemma sameCounts_emit (e : Event) : within sameCounts (emit e).
Proof. intros st; split; reflexivity. Qed.

Lemma sameCounts_setToken (t : option string) :
  within sameCounts (setToken t).
Proof. intros st; split; reflexivity. Qed.

Lemma sameCounts_fetch (env : Env) (req : FetchRequest) :
  within sameCounts (fetch env req).
Proof.
  intros st; unfold fetch.
  destruct (network env (fetchCount st) req); split; reflexivity.
Qed.

Lemma sameCounts_dateNow (env : Env) : within sameCounts (dateNow env).
Proof. intros st; split; reflexivity. Qed.

Create HintDb counts.
#[local] Hint Resolve sameCounts_refl sameCounts_trans sameCounts_emit
  sameCounts_setToken sameCounts_fetch sameCounts_dateNow : counts.

(** Breaks a computation into its parts, each of which keeps the list and
    the counter. *)
Ltac keep_counts :=
  repeat first
    [ apply within_ret; auto with counts
    | apply within_throw; auto with counts
    | apply within_getToken; auto with counts
    | apply within_readJson; auto with counts
    | apply sameCounts_emit
    | apply sameCounts_setToken
    | apply sameCounts_fetch
    | apply sameCounts_dateNow
    | apply within_bind; [eauto with counts | | intros ]
    | apply within_tryCatch; [eauto with counts | | intros ]
    | match goal with
      | |- within _ (if ?c then _ else _) => destruct c
      end ].

Lemma sameCounts_refreshAccessToken (env : Env) (userId refreshToken : string) :
  within sameCounts (refreshAccessToken env userId refreshToken).
Proof. unfold refreshAccessToken, consoleLog, consoleError; keep_counts. Qed.

(** The client never touches the list or the counter of the handler. *)
Lemma sameCounts_makeRequest (env : Env) (userId refreshToken : string)
    (url : Url) :
  within sameCounts (makeRequest env userId refreshToken url).
Proof.
  unfold makeRequest, consoleLog; keep_counts.
Qed.

(** ** The loop over the summaries *)

Section Loop.

(** The lemmas hold for any client whose detail call leaves the list and
    the counter alone, as the client of the program does. *)
Variable gmail : GmailClient.
Hypothesis getMessage_keeps :
  forall messageId, within sameCounts (getMessage gmail messageId).

(** A message whose detail arrives is counted, and listed when its sender
    matches. *)
Lemma processMessage_returned (message : MessageSummary) (st st1 : State)
    (fullMessage : Body) :
  getMessage gmail (msg_id message) st = (Returned fullMessage, st1) ->
  exists st',
    processMessage gmail message st = (Returned tt, st')
    /\ detectedNewsletters st'
       = (detectedNewsletters st ++ classified message fullMessage)%list
    /\ processedCount st' = S (processedCount st).
Proof.
  intros Hget.
  destruct (getMessage_keeps (msg_id message) st) as [Hd Hp].
  rewrite Hget in Hd, Hp; simpl in Hd, Hp.
  unfold processMessage, tryCatch, bind; rewrite Hget.
  unfold classified.
  destruct (matchesNewsletterPattern
              (extractEmail (headerValue "From" (payloadHeaders fullMessage))));
    simpl; eexists; (split; [reflexivity|]); simpl;
    rewrite Hd, Hp; [| rewrite app_nil_r]; split; reflexivity.
Qed.

(** A message whose detail call throws is left out: the error is logged,
    the list and the counter stay, and the body of the loop returns. *)
Lemma processMessage_thrown (message : MessageSummary) (st st1 : State)
    (e : Error) :
  getMessage gmail (msg_id message) st = (Thrown e, st1) ->
  exists st',
    processMessage gmail message st = (Returned tt, st')
    /\ trace st'
       = (trace st1
            ++ [LoggedError ("Error processing message " ++ msg_id message
                               ++ ":") e])%list
    /\ detectedNewsletters st' = detectedNewsletters st
    /\ processedCount st' = processedCount st.
Proof.
  intros Hget.
  destruct (getMessage_keeps (msg_id message) st) as [Hd Hp].
  rewrite Hget in Hd, Hp; simpl in Hd, Hp.
  unfold processMessage, tryCatch, bind; rewrite Hget.
  simpl; eexists; split; [reflexivity|]; simpl.
  repeat split; assumption.
Qed.

(** The body of the loop never throws. *)
Lemma processMessage_total (message : MessageSummary) (st : State) :
  exists st', processMessage gmail message st = (Returned tt, st').
Proof.
  destruct (getMessage gmail (msg_id message) st) as [[b|e] st1] eqn:Hget.
  - destruct (processMessage_returned _ _ _ _ Hget) as [st' [H _]]; eauto.
  - destruct (processMessage_thrown _ _ _ _ Hget) as [st' [H _]]; eauto.
Qed.

Lemma classified_wellClassified (message : MessageSummary) (b : Body) :
  Forall wellClassified (classified message b)
  /\ List.length (classified message b) <= 1.
Proof.
  unfold classified.
  destruct (matchesNewsletterPattern _) eqn:Hm; split; simpl; auto.
  constructor; [|constructor].
  repeat split; simpl; auto.
Qed.

(** The loop returns for every list of summaries; it adds well-classified
    entries only, no more of them than it counts and no more counts than
    summaries. *)
Lemma loop_invariant (batch : list MessageSummary) (st : State) :
  exists st' added count,
    forOf batch (processMessage gmail) st = (Returned tt, st')
    /\ detectedNewsletters st' = (detectedNewsletters st ++ added)%list
    /\ processedCount st' = processedCount st + count
    /\ Forall wellClassified added
    /\ List.length added <= count
    /\ count <= List.length batch.
Proof.
  revert st; induction batch as [|m batch IH]; intros st; simpl.
  - exists st, [], 0; unfold ret.
    rewrite app_nil_r, Nat.add_0_r; repeat split; auto.
  - unfold bind.
    destruct (getMessage gmail (msg_id m) st) as [[b|e] st1] eqn:Hget.
    + destruct (processMessage_returned _ _ _ _ Hget) as [st2 [Hrun [Hd Hp]]].
      rewrite Hrun.
      destruct (IH st2)
        as [st' [added [count [Hloop [Hd' [Hp' [Hw [Hl Hc]]]]]]]].
      destruct (classified_wellClassified m b) as [Hwc Hlc].
      exists st', (classified m b ++ added)%list, (S count).
      rewrite Hloop, Hd', Hp', Hd, Hp, <- app_assoc, length_app.
      split; [reflexivity|]. split; [reflexivity|].
      split; [lia|]. split; [apply Forall_app; auto|].
      simpl; split; lia.
    + destruct (processMessage_thrown _ _ _ _ Hget)
        as [st2 [Hrun [_ [Hd Hp]]]].
      rewrite Hrun.
      destruct (IH st2)
        as [st' [added [count [Hloop [Hd' [Hp' [Hw [Hl Hc]]]]]]]].
      exists st', added, count.
      rewrite Hloop, Hd', Hp', Hd, Hp.
      split; [reflexivity|]. split; [reflexivity|].
      split; [reflexivity|]. split; [assumption|].
      simpl; split; lia.
Qed.

(** The loop follows its run: it returns, having counted the summaries
    whose detail arrived and listed those among them that match; every
    summary of the batch has had its call. *)
Lemma loop_follows_run (batch : list MessageSummary) (st : State) :
  exists st',
    forOf batch (processMessage gmail) st = (Returned tt, st')
    /\ processedCount st'
       = processedCount st
         + List.length (delivered (detailOutcomes gmail batch st))
    /\ detectedNewsletters st'
       = (detectedNewsletters st
            ++ classifiedAll (delivered (detailOutcomes gmail batch st)))%list
    /\ List.length (delivered (detailOutcomes gmail batch st))
       + List.length (failed (detailOutcomes gmail batch st))
       = List.length batch.
Proof.
  revert st; induction batch as [|m batch IH]; intros st.
  - exists st; simpl; unfold ret.
    rewrite Nat.add_0_r, app_nil_r; repeat split.
  - cbn [forOf detailOutcomes]; unfold bind.
    destruct (getMessage gmail (msg_id m) st) as [[b|e] st1] eqn:Hget.
    + destruct (processMessage_returned m st st1 b Hget)
        as [st2 [Hrun [Hd Hp]]].
      rewrite Hrun; cbn [fst snd delivered failed].
      destruct (IH st2) as [st' [Hloop [Hp' [Hd' Hlen]]]].
      exists st'; rewrite Hloop, Hp', Hd', Hd, Hp.
      unfold classifiedAll; cbn [flat_map List.length fst snd].
      rewrite <- app_assoc.
      repeat split; lia.
    + destruct (processMessage_thrown m st st1 e Hget)
        as [st2 [Hrun [_ [Hd Hp]]]].
      rewrite Hrun; cbn [fst snd delivered failed].
      destruct (IH st2) as [st' [Hloop [Hp' [Hd' Hlen]]]].
      exists st'; rewrite Hloop, Hp', Hd', Hd, Hp.
      cbn [List.length].
      repeat split; lia.
Qed.

(** Every summary of the batch has an outcome, in the order of the
    batch. *)
Lemma detailOutcomes_summaries (batch : list MessageSummary) (st : State) :
  map fst (detailOutcomes gmail batch st) = batch.
Proof.
  revert st; induction batch as [|m batch IH]; intros st; simpl;
    [reflexivity | now rewrite IH].
Qed.

End Loop.

(** The client of the program is such a client. *)
Lemma client_keeps_counts (env : Env) (userId refreshToken : string)
    (messageId : string) :
  within sameCounts
    (getMessage (gmailClient env userId refreshToken) messageId).
Proof. apply sameCounts_makeRequest. Qed.

(** ** The report *)

Lemma map_detectedJson_injective (l l' : list Detected) :
  map detectedJson l = map detectedJson l' -> l = l'.
Proof.
  revert l'; induction l as [|d l IH]; intros [|d' l'] H; cbn [map] in H;
    try discriminate; [reflexivity|].
  injection H; intros Hl Hm Hdate Hsubj Hemail Hfrom Hid.
  destruct d, d'; simpl in *; subst.
  f_equal; now apply IH.
Qed.

(** The report shows the counter and the list it was built from. *)
Lemma reportBody_injective (t t' p p' : nat) (d d' : list Detected)
    (c c' : option (list Curated)) :
  reportBody t p d c = reportBody t' p' d' c' -> p = p' /\ d = d'.
Proof.
  unfold reportBody; intros H.
  injection H as _ Hp _ _ Hd _.
  split; [now apply Nat2Z.inj | now apply map_detectedJson_injective].
Qed.

(** Tests 2 and 3 always return the report, built from the counter and
    the list as the loop leaves them. *)
Lemma assembleReport_returns (env : Env) (userId refreshToken : string)
    (found : list MessageSummary) (st : State) :
  exists st',
    assembleReport env (gmailClient env userId refreshToken) found st
    = (Returned
         (jsonResponse
            (reportBody (List.length found) (processedCount st')
                        (detectedNewsletters st') (selectCurated env))
            200),
       st')
    /\ Forall wellClassified (detectedNewsletters st')
    /\ List.length (detectedNewsletters st') <= processedCount st'
    /\ processedCount st' <= 10
    /\ processedCount st' <= List.length found.
Proof.
  unfold assembleReport, bind, setDetected, setProcessed.
  cbn -[firstn forOf].
  match goal with
  | |- context [forOf ?l ?f ?s] =>
      destruct (loop_invariant _ (client_keeps_counts env userId refreshToken)
                  l s)
        as [st1 [added [count [Hloop [Hd [Hp [Hw [Hl Hc]]]]]]]]
  end.
  rewrite Hloop; cbn -[firstn] in *.
  exists (snd (emit CuratedQueried st1)).
  split; [reflexivity|]; cbn -[firstn].
  rewrite Hd, Hp.
  pose proof (firstn_le_length 10 found) as Hle.
  rewrite length_firstn in Hc.
  repeat split; auto; lia.
Qed.

(** ** The handler *)

(** Every answer of the handler is one of five: the reply to a
    pre-flight request, the report of an error thrown, the invitation to
    connect again, the note that nothing is recent, or the report. *)
Lemma serve_outcomes (env : Env) (req : Request) (st : State) :
  http_body (fst (serve env req st)) = Text "ok"
  \/ (exists e,
        fst (serve env req st)
        = jsonResponse (errorBody (message e) (stackOf env e)) 500)
  \/ fst (serve env req st) = jsonResponse needsReauthBody 200
  \/ fst (serve env req st) = jsonResponse noRecentBody 200
  \/ (exists userId refreshToken found st1 st2,
        assembleReport env (gmailClient env userId refreshToken) found st1
        = (Returned (fst (serve env req st)), st2)).
Proof.
  unfold serve.
  destruct (String.eqb (method req) "OPTIONS"); [left; reflexivity|].
  right.
  destruct (handle env req st) as [[resp|e] st'] eqn:Hrun;
    [|left; exists e; reflexivity].
  right; simpl.
  revert Hrun; unfold handle, bind at 1.
  destruct (authorization req) as [[|c h]|]; try discriminate.
  cbn [ret]. unfold bind at 1. cbn [emit].
  destruct (userError (getUser env _)); [discriminate|].
  destruct (user (getUser env _)) as [u|]; [|discriminate].
  unfold consoleLog. unfold bind at 1. cbn [emit]. unfold bind at 1. cbn [emit].
  destruct (authError (selectTokens env _)).
  { intros H; injection H as <- _; left; reflexivity. }
  destruct (authData (selectTokens env _)) as [a|].
  2:{ intros H; injection H as <- _; left; reflexivity. }
  unfold createGmailClient. unfold bind at 1. unfold bind at 1.
  cbn [setToken ret]. unfold bind at 1. cbn [dateNow].
  unfold bind at 1. cbn [emit].
  unfold bind at 1.
  match goal with
  | |- context [listMessages ?g ?q ?n ?s] =>
      destruct (listMessages g q n s) as [[b|e] st1]
  end; [|discriminate].
  destruct (messages b) as [found|].
  2:{ intros H; injection H as <- _; right; left; reflexivity. }
  unfold bind at 1. cbn [emit].
  intros H; right; right.
  eexists _, _, _, _, _; exact H.
Qed.

(** C10: when the handler answers with the report, every entry listed has
    [matched] true and an [email], the address extracted from its [from],
    that the matcher accepts; the entries are no more than the messages
    counted as processed, and these are no more than ten. *)
Theorem report_lists_matched_entries
    (env : Env) (req : Request) (st : State)
    (total processed : nat) (detected : list Detected)
    (curated : option (list Curated)) :
  http_body (fst (serve env req st))
  = JsonText (reportBody total processed detected curated) ->
  Forall (fun d => matched d = true
                   /\ email d = extractEmail (from d)
                   /\ matchesNewsletterPattern (email d) = true) detected
  /\ List.length detected <= processed
  /\ processed <= 10.
Proof.
  intros Hbody.
  destruct (serve_outcomes env req st)
    as [H|[[e H]|[H|[H|[u [rt [found [st1 [st2 H]]]]]]]]].
  - rewrite H in Hbody; discriminate.
  - rewrite H in Hbody; discriminate.
  - rewrite H in Hbody; discriminate.
  - rewrite H in Hbody; discriminate.
  - destruct (assembleReport_returns env u rt found st1)
      as [st' [Hrun [Hw [Hl [Hten _]]]]].
    rewrite Hrun in H; injection H as Hresp Hst.
    rewrite <- Hresp in Hbody; unfold jsonResponse in Hbody.
    cbn [http_body] in Hbody.
    assert (Hsame : reportBody (List.length found) (processedCount st')
                      (detectedNewsletters st') (selectCurated env)
                    = reportBody total processed detected curated)
      by congruence.
    apply reportBody_injective in Hsame; destruct Hsame as [<- <-].
    repeat split; assumption.
Qed.

(** With a credential that names a user and nothing stored for that
    user, the [try] block returns the invitation to connect again. *)
Lemma handle_missing_tokens
    (env : Env) (req : Request) (h : string) (u : User) (st : State) :
  authorization req = Some h ->
  h <> EmptyString ->
  userError (getUser env (replace "Bearer " EmptyString h)) = None ->
  user (getUser env (replace "Bearer " EmptyString h)) = Some u ->
  authError (selectTokens env (user_id u)) <> None
  \/ authData (selectTokens env (user_id u)) = None ->
  exists st',
    handle env req st = (Returned (jsonResponse needsReauthBody 200), st').
Proof.
  intros Hauth Hne Herr Huser Hnone.
  unfold handle; cbv zeta; unfold bind at 1; rewrite Hauth.
  destruct h as [|c h]; [congruence|].
  cbn [ret]. unfold bind at 1. cbn [emit].
  rewrite Herr, Huser.
  unfold consoleLog. unfold bind at 1. cbn [emit]. unfold bind at 1. cbn [emit].
  destruct (authError (selectTokens env (user_id u))) as [e|].
  - eexists; reflexivity.
  - destruct Hnone as [Hnone| ->]; [congruence|].
    eexists; reflexivity.
Qed.

(** C9: a request whose credential names a user, and for whom the query
    of the credential store made by the run finds no tokens, is answered
    with status 200 and a body in which [success] is false and
    [needsReauth] is true. *)
Theorem missing_tokens_ask_for_reauth
    (env : Env) (req : Request) (h : string) (u : User) :
  authorization req = Some h ->
  h <> EmptyString ->
  userError (getUser env (replace "Bearer " EmptyString h)) = None ->
  user (getUser env (replace "Bearer " EmptyString h)) = Some u ->
  In (TokensQueried (user_id u))
     (trace (snd (serve env req initialState))) ->
  authError (selectTokens env (user_id u)) <> None
  \/ authData (selectTokens env (user_id u)) = None ->
  http_status (fst (serve env req initialState)) = 200%Z
  /\ exists body,
       http_body (fst (serve env req initialState)) = JsonText body
       /\ field "success" body = Some (JBool false)
       /\ field "needsReauth" body = Some (JBool true).
Proof.
  intros Hauth Hne Herr Huser Hin Hnone.
  destruct (handle_missing_tokens env req h u initialState
              Hauth Hne Herr Huser Hnone) as [st' Hrun].
  revert Hin; unfold serve.
  destruct (String.eqb (method req) "OPTIONS"); [intros []|].
  rewrite Hrun; intros _; split; [reflexivity|].
  exists needsReauthBody; repeat split; reflexivity.
Qed.

Lemma missing_tokens_ask_for_reauth_witness :
  http_status (fst (serve Samples.neverConnected Samples.goodRequest
                          initialState)) = 200%Z
  /\ exists body,
       http_body (fst (serve Samples.neverConnected Samples.goodRequest
                             initialState)) = JsonText body
       /\ field "success" body = Some (JBool false)
       /\ field "needsReauth" body = Some (JBool true).
Proof.
  apply (missing_tokens_ask_for_reauth Samples.neverConnected
           Samples.goodRequest "Bearer good-jwt" Samples.theUser).
  - reflexivity.
  - discriminate.
  - reflexivity.
  - reflexivity.
  - vm_compute; auto.
  - left; discriminate.
Defined.

Lemma refresh_then_retry_succeeds_witness :
  exists (st' : State) (evs : list Event),
    makeRequest Samples.expiredToken "user-1" "refresh-1" (MessageUrl "m1")
                Samples.beforeCall
    = (Returned (Samples.detailBody "m1"), st')
    /\ trace st' = (trace Samples.beforeCall ++ evs)%list
    /\ apiCalls evs = [ (MessageUrl "m1", "Bearer old-token");
                        (MessageUrl "m1", "Bearer new-token") ]
    /\ tokenExchanges evs = ["refresh-1"]
    /\ storeWrites evs = [ ("user-1", Some "new-token", 1748851202000%Z) ]
    /\ currentAccessToken st' = Some "new-token".
Proof.
  apply (refresh_then_retry_succeeds Samples.expiredToken "user-1"
           "refresh-1" (MessageUrl "m1") Samples.beforeCall
           (Samples.failure 401 "Unauthorized")
           (Samples.okResponse (Samples.tokenBody "new-token"))
           (Samples.answer (MessageUrl "m1"))
           (Samples.tokenBody "new-token"));
    reflexivity.
Defined.

Lemma retry_failure_is_final_witness :
  exists (st' : State) (evs : list Event),
    makeRequest Samples.revokedAccess "user-1" "refresh-1" (MessageUrl "m1")
                Samples.beforeCall
    = (Thrown (ApiFailure 401 "Unauthorized"), st')
    /\ trace st' = (trace Samples.beforeCall ++ evs)%list
    /\ apiCalls evs = [ (MessageUrl "m1", "Bearer old-token");
                        (MessageUrl "m1", "Bearer new-token") ]
    /\ tokenExchanges evs = ["refresh-1"]
    /\ fetchCount st' = 3.
Proof.
  apply (retry_failure_is_final Samples.revokedAccess "user-1" "refresh-1"
           (MessageUrl "m1") Samples.beforeCall
           (Samples.failure 401 "Unauthorized")
           (Samples.okResponse (Samples.tokenBody "new-token"))
           (Samples.failure 401 "Unauthorized")
           (Samples.tokenBody "new-token"));
    reflexivity.
Defined.

Lemma report_lists_matched_entries_witness :
  Forall (fun d => matched d = true
                   /\ email d = extractEmail (from d)
                   /\ matchesNewsletterPattern (email d) = true)
         (detectedNewsletters
            (snd (serve Samples.expiredToken Samples.goodRequest
                        initialState)))
  /\ 5 <= 10 /\ 10 <= 10.
Proof.
  apply (report_lists_matched_entries Samples.expiredToken
           Samples.goodRequest initialState 10 10
           (detectedNewsletters
              (snd (serve Samples.expiredToken Samples.goodRequest
                          initialState)))
           (selectCurated Samples.expiredToken)).
  vm_compute; reflexivity.
Defined.

(** ** A batch with items that fail *)

(** The report follows the run of the loop from [resetCounts]. *)
Lemma assembleReport_follows_run
    (env : Env) (userId refreshToken : string)
    (found : list MessageSummary) (st : State) :
  exists st',
    assembleReport env (gmailClient env userId refreshToken) found st
    = (Returned
         (jsonResponse
            (reportBody (List.length found)
               (List.length
                  (delivered
                     (detailOutcomes (gmailClient env userId refreshToken)
                        (firstn 10 found) (resetCounts st))))
               (classifiedAll
                  (delivered
                     (detailOutcomes (gmailClient env userId refreshToken)
                        (firstn 10 found) (resetCounts st))))
               (selectCurated env))
            200),
       st').
Proof.
  unfold assembleReport, bind, setDetected, setProcessed.
  cbn -[firstn forOf].
  destruct (loop_follows_run _ (client_keeps_counts env userId refreshToken)
              (firstn 10 found) (resetCounts st))
    as [st1 [Hloop [Hp [Hd _]]]].
  unfold resetCounts in Hloop at 1.
  rewrite Hloop.
  exists (snd (emit CuratedQueried st1)).
  cbn -[firstn reportBody detailOutcomes] in *.
  rewrite Hp, Hd; reflexivity.
Qed.

(** C6: whatever the detail calls of a batch do in the run, each in the
    state in which the loop makes it, the loop returns: a call that
    throws leaves its summary out and the loop goes on, so that the
    summaries whose detail arrived are all counted and classified and
    every summary is either counted or left out.  The report of the first
    ten is returned with status 200; with ten summaries of which exactly
    one has its call throw, the fifth or any other, nine are counted. *)
Theorem batch_survives_item_failures
    (env : Env) (userId refreshToken : string)
    (found : list MessageSummary) (st : State) :
  (forall (batch : list MessageSummary) (s : State),
      exists s',
        forOf batch (processMessage (gmailClient env userId refreshToken)) s
        = (Returned tt, s')
        /\ processedCount s'
           = processedCount s
             + List.length
                 (delivered
                    (detailOutcomes (gmailClient env userId refreshToken)
                       batch s))
        /\ detectedNewsletters s'
           = (detectedNewsletters s
                ++ classifiedAll
                     (delivered
                        (detailOutcomes (gmailClient env userId refreshToken)
                           batch s)))%list
        /\ List.length
             (delivered
                (detailOutcomes (gmailClient env userId refreshToken)
                   batch s))
           + List.length
               (failed
                  (detailOutcomes (gmailClient env userId refreshToken)
                     batch s))
           = List.length batch)
  /\ (exists st',
        assembleReport env (gmailClient env userId refreshToken) found st
        = (Returned
             (jsonResponse
                (reportBody (List.length found)
                   (List.length
                      (delivered
                         (detailOutcomes
                            (gmailClient env userId refreshToken)
                            (firstn 10 found) (resetCounts st))))
                   (classifiedAll
                      (delivered
                         (detailOutcomes
                            (gmailClient env userId refreshToken)
                            (firstn 10 found) (resetCounts st))))
                   (selectCurated env))
                200),
           st'))
  /\ (List.length found = 10 ->
      List.length
        (failed
           (detailOutcomes (gmailClient env userId refreshToken)
              (firstn 10 found) (resetCounts st))) = 1 ->
      List.length
        (delivered
           (detailOutcomes (gmailClient env userId refreshToken)
              (firstn 10 found) (resetCounts st))) = 9).
Proof.
  split; [|split].
  - intros batch s.
    apply loop_follows_run, client_keeps_counts.
  - apply assembleReport_follows_run.
  - intros Hten Hone.
    destruct (loop_follows_run _
                (client_keeps_counts env userId refreshToken)
                (firstn 10 found) (resetCounts st))
      as [_ [_ [_ [_ Hlen]]]].
    rewrite length_firstn in Hlen; lia.
Qed.

Lemma batch_survives_item_failures_witness :
  List.length
    (delivered
       (detailOutcomes
          (gmailClient Samples.fifthCallFails "user-1" "refresh-1")
          (firstn 10 Samples.tenSummaries)
          (resetCounts Samples.beforeCall))) = 9
  /\ failed
       (detailOutcomes
          (gmailClient Samples.fifthCallFails "user-1" "refresh-1")
          (firstn 10 Samples.tenSummaries)
          (resetCounts Samples.beforeCall))
     = [ (Samples.summary "m5", new_Error "connection reset") ].
Proof.
  split.
  - apply (batch_survives_item_failures Samples.fifthCallFails
             "user-1" "refresh-1" Samples.tenSummaries Samples.beforeCall).
    + reflexivity.
    + vm_compute; reflexivity.
  - vm_compute; reflexivity.
Defined.

(** ** A refresh that the token endpoint refuses *)

(** C5 fails: in the sample world where the listing is served, every
    detail call is answered 401 and the token endpoint answers 400, a
    refresh is refused for each of the ten messages and the handler
    answers 200, with nothing counted. *)
Lemma refused_refresh_always_500_fails :
  List.length
    (tokenExchanges
       (trace (snd (serve Samples.refusedRefresh Samples.goodRequest
                          initialState)))) = 10
  /\ storeWrites
       (trace (snd (serve Samples.refusedRefresh Samples.goodRequest
                          initialState))) = []
  /\ In ("Error refreshing token:", RefreshFailure)
        (errorsLogged
           (trace (snd (serve Samples.refusedRefresh Samples.goodRequest
                              initialState))))
  /\ http_status (fst (serve Samples.refusedRefresh Samples.goodRequest
                             initialState)) = 200%Z
  /\ processedCount (snd (serve Samples.refusedRefresh Samples.goodRequest
                                initialState)) = 0
  /\ ~ refused_refresh_always_500.
Proof.
  split; [vm_compute; reflexivity|].
  split; [vm_compute; reflexivity|].
  split; [vm_compute; left; reflexivity|].
  split; [vm_compute; reflexivity|].
  split; [vm_compute; reflexivity|].
  intros H.
  assert (Hc := H Samples.refusedRefresh Samples.goodRequest).
  vm_compute in Hc.
  assert (Hno : 200%Z = 500%Z) by (apply Hc; left; reflexivity).
  discriminate Hno.
Qed.

(** On the listing, the first call of the handler, a refused refresh goes
    up to the [catch] of the handler. *)
Lemma refused_refresh_on_listing
    (env : Env) (req : Request) (st : State) (h : string) (u : User)
    (a : AuthData) (r1 r2 : Response) :
  String.eqb (method req) "OPTIONS" = false ->
  authorization req = Some h ->
  h <> EmptyString ->
  userError (getUser env (replace "Bearer " EmptyString h)) = None ->
  user (getUser env (replace "Bearer " EmptyString h)) = Some u ->
  authError (selectTokens env (user_id u)) = None ->
  authData (selectTokens env (user_id u)) = Some a ->
  network env (fetchCount st)
          (ApiRequest (recentUrl (now env (fetchCount st)))
                      (bearer (Some (stored_access_token a))))
    = Responded r1 ->
  status r1 = 401%Z ->
  network env (S (fetchCount st)) (tokenRequest env (stored_refresh_token a))
    = Responded r2 ->
  ok r2 = false ->
  fst (serve env req st)
  = jsonResponse
      (errorBody "Failed to refresh token" (stackOf env RefreshFailure)) 500.
Proof.
  intros Hm Hauth Hne Herr Huser Hae Had H1 Hs1 H2 Hok2.
  assert (Hrun : exists st', handle env req st = (Thrown RefreshFailure, st')).
  { unfold handle; cbv zeta; unfold bind at 1; rewrite Hauth.
    destruct h as [|c h]; [congruence|].
    cbn [ret]. unfold bind at 1. cbn [emit].
    rewrite Herr, Huser.
    unfold consoleLog. unfold bind at 1. cbn [emit].
    unfold bind at 1. cbn [emit].
    rewrite Hae, Had.
    unfold createGmailClient. unfold bind at 1. unfold bind at 1.
    cbn [setToken ret]. unfold bind at 1. cbn [dateNow].
    unfold bind at 1. cbn [emit].
    unfold bind at 1.
    match goal with
    | |- context [listMessages ?g ?q ?n ?s] =>
        destruct (refused_refresh_throws env (user_id u)
                    (stored_refresh_token a) (MessagesUrl q (ofZ n)) s
                    r1 r2 H1 Hs1 H2 Hok2) as [st' [evs [Hthrow _]]];
        change (listMessages g q n s)
          with (makeRequest env (user_id u) (stored_refresh_token a)
                            (MessagesUrl q (ofZ n)) s);
        rewrite Hthrow
    end.
    eexists; reflexivity. }
  destruct Hrun as [st' Hrun].
  unfold serve; rewrite Hm, Hrun; reflexivity.
Qed.

(** C5, amended: a refresh that the token endpoint refuses reaches the
    handler, and gives a 500 response, when it happens on the listing.  On
    the detail call of a message it is caught in the loop: both errors are
    logged, the message is neither counted nor listed, the body of the
    loop returns; and whatever the items do, the report that follows has
    status 200. *)
Theorem refused_refresh_reaches_handler_from_listing :
  (forall (env : Env) (req : Request) (st : State) (h : string) (u : User)
          (a : AuthData) (r1 r2 : Response),
      String.eqb (method req) "OPTIONS" = false ->
      authorization req = Some h ->
      h <> EmptyString ->
      userError (getUser env (replace "Bearer " EmptyString h)) = None ->
      user (getUser env (replace "Bearer " EmptyString h)) = Some u ->
      authError (selectTokens env (user_id u)) = None ->
      authData (selectTokens env (user_id u)) = Some a ->
      network env (fetchCount st)
              (ApiRequest (recentUrl (now env (fetchCount st)))
                          (bearer (Some (stored_access_token a))))
        = Responded r1 ->
      status r1 = 401%Z ->
      network env (S (fetchCount st))
              (tokenRequest env (stored_refresh_token a)) = Responded r2 ->
      ok r2 = false ->
      fst (serve env req st)
      = jsonResponse
          (errorBody "Failed to refresh token" (stackOf env RefreshFailure))
          500)
  /\ (forall (env : Env) (userId refreshToken : string)
             (message : MessageSummary) (st : State) (r1 r2 : Response),
         network env (fetchCount st)
                 (ApiRequest (MessageUrl (msg_id message))
                             (bearer (currentAccessToken st)))
           = Responded r1 ->
         status r1 = 401%Z ->
         network env (S (fetchCount st)) (tokenRequest env refreshToken)
           = Responded r2 ->
         ok r2 = false ->
         exists (st' : State) (evs : list Event),
           processMessage (gmailClient env userId refreshToken) message st
           = (Returned tt, st')
           /\ trace st' = (trace st ++ evs)%list
           /\ errorsLogged evs
              = [ ("Error refreshing token:", RefreshFailure);
                  ("Error processing message " ++ msg_id message ++ ":",
                   RefreshFailure) ]
           /\ detectedNewsletters st' = detectedNewsletters st
           /\ processedCount st' = processedCount st)
  /\ (forall (env : Env) (userId refreshToken : string)
             (found : list MessageSummary) (st : State),
         exists (response : HttpResponse) (st' : State),
           assembleReport env (gmailClient env userId refreshToken) found st
           = (Returned response, st')
           /\ http_status response = 200%Z).
Proof.
  split; [|split].
  - exact refused_refresh_on_listing.
  - intros env userId refreshToken message st r1 r2 H1 Hs1 H2 Hok2.
    destruct (refused_refresh_throws env userId refreshToken
                (MessageUrl (msg_id message)) st r1 r2 H1 Hs1 H2 Hok2)
      as [st1 [evs [Hthrow [Htrace [_ [_ [Hlog _]]]]]]].
    destruct (processMessage_thrown _
                (client_keeps_counts env userId refreshToken) message st st1
                RefreshFailure Hthrow) as [st' [Hrun [Htrace' [Hd Hp]]]].
    exists st', (evs ++ [LoggedError ("Error processing message "
                                       ++ msg_id message ++ ":")
                                    RefreshFailure])%list.
    split; [exact Hrun|].
    split; [now rewrite Htrace', Htrace, app_assoc|].
    split; [|split; assumption].
    clear - Hlog; revert Hlog.
    generalize ("Error processing message " ++ msg_id message ++ ":").
    intros label Hlog.
    assert (Happ : forall l1 l2,
               errorsLogged (l1 ++ l2)
               = (errorsLogged l1 ++ errorsLogged l2)%list).
    { induction l1 as [|[] l1 IH]; intros l2; simpl; rewrite ?IH; auto. }
    rewrite Happ, Hlog; reflexivity.
  - intros env userId refreshToken found st.
    destruct (assembleReport_returns env userId refreshToken found st)
      as [st' [Hrun _]].
    eexists; exists st'; split; [exact Hrun | reflexivity].
Qed.

Lemma refused_refresh_reaches_handler_from_listing_witness :
  fst (serve Samples.refusedRefreshOnList Samples.goodRequest initialState)
  = jsonResponse
      (errorBody "Failed to refresh token" "Error: Failed to refresh token")
      500
  /\ exists (st' : State) (evs : list Event),
       processMessage
         (gmailClient Samples.refusedRefresh "user-1" "refresh-1")
         (Samples.summary "m1") Samples.beforeCall
       = (Returned tt, st')
       /\ trace st' = (trace Samples.beforeCall ++ evs)%list
       /\ errorsLogged evs
          = [ ("Error refreshing token:", RefreshFailure);
              ("Error processing message m1:", RefreshFailure) ]
       /\ detectedNewsletters st' = []
       /\ processedCount st' = 0.
Proof.
  destruct refused_refresh_reaches_handler_from_listing as [Hlist [Hitem _]].
  split.
  - apply (Hlist Samples.refusedRefreshOnList Samples.goodRequest
             initialState "Bearer good-jwt" Samples.theUser
             {| stored_access_token := "old-token";
                stored_refresh_token := "refresh-1" |}
             (Samples.failure 401 "Unauthorized")
             (Samples.failure 400 "Bad Request"));
      try reflexivity.
    discriminate.
  - apply (Hitem Samples.refusedRefresh "user-1" "refresh-1"
             (Samples.summary "m1") Samples.beforeCall
             (Samples.failure 401 "Unauthorized")
             (Samples.failure 400 "Bad Request"));
      reflexivity.
Defined.

(** * Further properties *)

(** ** The address taken from a From header *)

Lemma upToGt_group (g post : string) :
  occurs ">" g = false -> upToGt (g ++ String ">" post) = Some g.
Proof.
  induction g as [|c g IH]; simpl; [reflexivity|].
  intros H; apply orb_false_iff in H; destruct H as [Hc Hg].
  rewrite Hc, (IH Hg); reflexivity.
Qed.

Lemma matchAngle_skip (pre rest : string) :
  occurs "<" pre = false -> matchAngle (pre ++ rest) = matchAngle rest.
Proof.
  induction pre as [|c pre IH]; simpl; [reflexivity|].
  intros H; apply orb_false_iff in H; destruct H as [Hc Hp].
  rewrite Hc; apply IH, Hp.
Qed.

Lemma matchAngle_none (s : string) :
  occurs "<" s = false -> matchAngle s = None.
Proof.
  intros H; rewrite <- (append_empty_r s).
  rewrite matchAngle_skip by exact H; reflexivity.
Qed.

Lemma atBeforeLast_none (s : string) :
  occurs "@" s = false -> atBeforeLast s = false.
Proof.
  induction s as [|c s IH]; simpl; [reflexivity|].
  intros H; apply orb_false_iff in H; destruct H as [Hc Hs].
  destruct s; [reflexivity|].
  rewrite Hc; apply IH, Hs.
Qed.

Lemma occurs_token (c : ascii) (s : string) :
  occurs c s = false -> occurs c (token s) = false.
Proof.
  induction s as [|a s IH]; simpl; [reflexivity|].
  intros H; apply orb_false_iff in H; destruct H as [Ha Hs].
  destruct (isWhiteSpace a); simpl; [reflexivity|].
  rewrite Ha; apply IH, Hs.
Qed.

Lemma matchBare_none (s : string) :
  occurs "@" s = false -> matchBare s = None.
Proof.
  induction s as [|c s IH]; simpl; [reflexivity|].
  intros H; apply orb_false_iff in H; destruct H as [_ Hs].
  rewrite (atBeforeLast_none _ (occurs_token _ _ Hs)), (IH Hs).
  destruct (isWhiteSpace c); reflexivity.
Qed.

Lemma token_whole (s : string) : hasWhiteSpace s = false -> token s = s.
Proof.
  induction s as [|c s IH]; simpl; [reflexivity|].
  intros H; apply orb_false_iff in H; destruct H as [Hc Hs].
  rewrite Hc, (IH Hs); reflexivity.
Qed.

Lemma trim_whole (s : string) : hasWhiteSpace s = false -> trim s = s.
Proof.
  intros H; unfold trim.
  assert (Hstart : trimStart s = s).
  { destruct s as [|c s]; simpl in *; [reflexivity|].
    apply orb_false_iff in H; destruct H as [Hc _]; now rewrite Hc. }
  rewrite Hstart; clear Hstart.
  induction s as [|c s IH]; simpl in *; [reflexivity|].
  apply orb_false_iff in H; destruct H as [Hc Hs].
  rewrite (IH Hs), Hc; destruct s; reflexivity.
Qed.

Lemma matchBare_no_inner_at (s : string) :
  hasWhiteSpace s = false -> atBeforeLast s = false -> matchBare s = None.
Proof.
  induction s as [|c s IH]; simpl; [reflexivity|].
  intros H Hat; apply orb_false_iff in H; destruct H as [Hc Hs].
  rewrite Hc, (token_whole _ Hs).
  assert (Hs' : atBeforeLast s = false).
  { destruct s; [reflexivity|].
    apply orb_false_iff in Hat; apply Hat. }
  rewrite Hs'; apply IH; assumption.
Qed.

(** X1: in a From value whose first [<] opens a group, one unit or more
    without [>] closed by [>], the address is that group with the white
    space at its ends removed, whatever stands before (a display name, an
    [@] included) and after. *)
Theorem extractEmail_angle_group (pre g post : string) :
  occurs "<" pre = false ->
  occurs ">" g = false ->
  g <> EmptyString ->
  extractEmail (pre ++ String "<" (g ++ String ">" post)) = trim g.
Proof.
  intros Hpre Hg Hne; unfold extractEmail.
  rewrite (matchAngle_skip _ _ Hpre); simpl.
  rewrite (upToGt_group _ _ Hg).
  destruct g; [congruence | reflexivity].
Qed.

Lemma extractEmail_angle_group_witness :
  extractEmail "Eve at x@y.z < Crew@MorningBrew.com > (list)"
  = "Crew@MorningBrew.com".
Proof.
  apply (extractEmail_angle_group "Eve at x@y.z " " Crew@MorningBrew.com "
           " (list)").
  - reflexivity.
  - reflexivity.
  - discriminate.
Defined.

(** X2: a From value with no [<] and no [@] is taken as it is, white
    space included: neither expression matches and nothing is trimmed. *)
Theorem extractEmail_no_address (sender : string) :
  occurs "<" sender = false ->
  occurs "@" sender = false ->
  extractEmail sender = sender.
Proof.
  intros Hlt Hat; unfold extractEmail.
  rewrite (matchAngle_none _ Hlt), (matchBare_none _ Hat); reflexivity.
Qed.

Lemma extractEmail_no_address_witness :
  extractEmail "  Mailer Daemon  " = "  Mailer Daemon  ".
Proof.
  apply (extractEmail_no_address "  Mailer Daemon  "); reflexivity.
Defined.

(** X3: a From value with no [<] and no white space is taken whole,
    whether or not it holds an [@] inside. *)
Theorem extractEmail_single_token (sender : string) :
  occurs "<" sender = false ->
  hasWhiteSpace sender = false ->
  extractEmail sender = sender.
Proof.
  intros Hlt Hws; unfold extractEmail.
  rewrite (matchAngle_none _ Hlt).
  destruct sender as [|c s]; [reflexivity|].
  simpl in Hws; apply orb_false_iff in Hws; destruct Hws as [Hc Hs].
  simpl; rewrite Hc, (token_whole _ Hs).
  destruct (atBeforeLast s) eqn:Hat.
  - apply trim_whole; simpl; now rewrite Hc, Hs.
  - now rewrite (matchBare_no_inner_at _ Hs Hat).
Qed.

Lemma extractEmail_single_token_witness :
  extractEmail "writer@substack.com" = "writer@substack.com".
Proof.
  apply (extractEmail_single_token "writer@substack.com"); reflexivity.
Defined.

(** ** More on the matcher *)

Lemma lowerUnit_idempotent (c : ascii) : lowerUnit (lowerUnit c) = lowerUnit c.
Proof. destruct c as [[] [] [] [] [] [] [] []]; reflexivity. Qed.

Lemma toLowerCase_idempotent (s : string) :
  toLowerCase (toLowerCase s) = toLowerCase s.
Proof.
  induction s as [|c s IH]; simpl; [reflexivity|].
  now rewrite lowerUnit_idempotent, IH.
Qed.

Lemma lowerUnit_star (c : ascii) :
  Ascii.eqb (lowerUnit c) "*" = Ascii.eqb c "*".
Proof. destruct c as [[] [] [] [] [] [] [] []]; reflexivity. Qed.

Lemma lowerUnit_at (c : ascii) :
  Ascii.eqb (lowerUnit c) "@" = Ascii.eqb c "@".
Proof. destruct c as [[] [] [] [] [] [] [] []]; reflexivity. Qed.

Lemma matchesPattern_lower_pattern (addr p : string) :
  matchesPattern addr (toLowerCase p) = matchesPattern addr p.
Proof.
  unfold matchesPattern.
  destruct p as [|a [|b p]]; simpl.
  - reflexivity.
  - rewrite lowerUnit_star, lowerUnit_idempotent.
    destruct (Ascii.eqb a "*"); reflexivity.
  - rewrite lowerUnit_star, lowerUnit_at.
    rewrite !lowerUnit_idempotent, !toLowerCase_idempotent.
    reflexivity.
Qed.

(** X4: the matcher does not see the case of letters, in the address or
    in a pattern: lower-casing either leaves every answer as it is. *)
Theorem matcher_ignores_case (patterns : list string) (addr : string) :
  (forall p, matchesPattern (toLowerCase addr) p = matchesPattern addr p)
  /\ (forall p, matchesPattern addr (toLowerCase p) = matchesPattern addr p)
  /\ matchesPatterns patterns (toLowerCase addr)
     = matchesPatterns patterns addr
  /\ matchesPatterns (map toLowerCase patterns) addr
     = matchesPatterns patterns addr.
Proof.
  assert (Haddr : forall p,
             matchesPattern (toLowerCase addr) p = matchesPattern addr p).
  { intros p; unfold matchesPattern.
    now rewrite toLowerCase_idempotent. }
  split; [exact Haddr|].
  split; [intros p; apply matchesPattern_lower_pattern|].
  unfold matchesPatterns; split.
  - induction patterns as [|p ps IH]; simpl; [reflexivity|].
    now rewrite Haddr, IH.
  - induction patterns as [|p ps IH]; simpl; [reflexivity|].
    now rewrite matchesPattern_lower_pattern, IH.
Qed.

(** X5: a wildcard pattern whose domain ends with the domain of another
    is covered by that other: whatever it matches, the other matches.  So
    the entry [*@ck.convertkit.com] of the program's list adds nothing to
    [*@convertkit.com]: without it the matcher answers the same on every
    address. *)
Theorem wildcard_covered_by_shorter_domain :
  (forall addr d d' : string,
      (exists q, toLowerCase d' = q ++ toLowerCase d) ->
      matchesPattern addr ("*@" ++ d') = true ->
      matchesPattern addr ("*@" ++ d) = true)
  /\ (forall addr : string,
         matchesNewsletterPattern addr
         = matchesPatterns PATTERNS_WITHOUT_CK addr).
Proof.
  assert (Hcover : forall addr d d' : string,
             (exists q, toLowerCase d' = q ++ toLowerCase d) ->
             matchesPattern addr ("*@" ++ d') = true ->
             matchesPattern addr ("*@" ++ d) = true).
  { intros addr d d' [q Hq].
    rewrite !matchesPattern_wildcard, !endsWith_suffix.
    intros [p Hp]; exists (p ++ q).
    rewrite Hp, Hq; clear.
    induction p as [|c p IH]; simpl; [reflexivity | now rewrite IH]. }
  split; [exact Hcover|].
  intros addr.
  unfold matchesNewsletterPattern, matchesPatterns, NEWSLETTER_PATTERNS,
    PATTERNS_WITHOUT_CK.
  cbn [some].
  destruct (matchesPattern addr "*@mail.beehiiv.com"); [reflexivity|].
  destruct (matchesPattern addr "*@substack.com"); [reflexivity|].
  destruct (matchesPattern addr "*@convertkit.com") eqn:Hck; [reflexivity|].
  destruct (matchesPattern addr "crew@morningbrew.com"); [reflexivity|].
  destruct (matchesPattern addr "hello@thehustle.co"); [reflexivity|].
  destruct (matchesPattern addr "*@newsletters.feedbinusercontent.com");
    [reflexivity|].
  destruct (matchesPattern addr "*@ck.convertkit.com") eqn:Hsub;
    [|reflexivity].
  assert (Hyes : matchesPattern addr "*@convertkit.com" = true)
    by (apply (Hcover addr "convertkit.com" "ck.convertkit.com");
        [exists "ck."; reflexivity | exact Hsub]).
  congruence.
Qed.

Lemma wildcard_covered_by_shorter_domain_witness :
  matchesPattern "News@CK.ConvertKit.com" "*@convertkit.com" = true.
Proof.
  apply (proj1 wildcard_covered_by_shorter_domain
           "News@CK.ConvertKit.com" "convertkit.com" "ck.convertkit.com").
  - exists "ck."; reflexivity.
  - reflexivity.
Defined.

Lemma toLowerCase_empty (s : string) :
  toLowerCase s = EmptyString <-> s = EmptyString.
Proof. destruct s; simpl; split; intros H; congruence. Qed.

(** X6: the pattern [*@], a wildcard with an empty domain, matches every
    address, and a list holding it accepts every address; the empty
    address matches a wildcard pattern only when its domain is empty, and
    an exact pattern only when the pattern is empty. *)
Theorem empty_domain_and_empty_address :
  (forall addr, matchesPattern addr "*@" = true)
  /\ (forall patterns addr,
         In "*@" patterns -> matchesPatterns patterns addr = true)
  /\ (forall d, matchesPattern EmptyString ("*@" ++ d) = true
                <-> d = EmptyString)
  /\ (forall p, startsWith p "*@" = false ->
                (matchesPattern EmptyString p = true <-> p = EmptyString)).
Proof.
  assert (Hall : forall addr, matchesPattern addr "*@" = true).
  { intros addr.
    change "*@" with ("*@" ++ EmptyString).
    rewrite matchesPattern_wildcard; apply endsWith_suffix.
    exists (toLowerCase addr); simpl; now rewrite append_empty_r. }
  split; [exact Hall|].
  split.
  { intros patterns addr Hin; unfold matchesPatterns.
    apply some_exists; exists "*@"; split; [exact Hin | apply Hall]. }
  split.
  - intros d; rewrite matchesPattern_wildcard, endsWith_suffix.
    split.
    + intros [p Hp]; apply toLowerCase_empty.
      destruct p; simpl in Hp; [now symmetry | discriminate].
    + intros ->; exists EmptyString; reflexivity.
  - intros p Hp; unfold matchesPattern; rewrite Hp.
    rewrite String.eqb_eq; simpl.
    split; intros H.
    + now apply toLowerCase_empty.
    + symmetry; now apply toLowerCase_empty.
Qed.

Lemma empty_domain_and_empty_address_witness :
  matchesPatterns ["hello@thehustle.co"; "*@"] "anyone@example.org" = true.
Proof.
  apply (proj1 (proj2 empty_domain_and_empty_address)
           ["hello@thehustle.co"; "*@"] "anyone@example.org").
  right; left; reflexivity.
Defined.

(** ** More on the client *)

(** What one request may do, whatever the outside answers. *)
Lemma makeRequest_footprint
    (env : Env) (userId refreshToken : string) (url : Url) (st : State) :
  exists evs : list Event,
    trace (snd (makeRequest env userId refreshToken url st))
    = (trace st ++ evs)%list
    /\ fetchCount (snd (makeRequest env userId refreshToken url st))
       = fetchCount st + List.length (apiCalls evs)
         + List.length (tokenExchanges evs)
    /\ 1 <= List.length (apiCalls evs) <= 2
    /\ List.length (tokenExchanges evs) <= 1
    /\ Forall (fun call => fst call = url) (apiCalls evs)
    /\ ((storeWrites evs = []
         /\ currentAccessToken (snd (makeRequest env userId refreshToken
                                                  url st))
            = currentAccessToken st)
        \/ (exists t at_,
               storeWrites evs = [(userId, t, at_)]
               /\ tokenExchanges evs = [refreshToken]
               /\ currentAccessToken (snd (makeRequest env userId
                                             refreshToken url st)) = t)).
Proof.
  unfold makeRequest, refreshAccessToken, bind, tryCatch, fetch, getToken,
    setToken, consoleLog, consoleError, emit, dateNow, readJson, throw, ret.
  repeat (simpl;
          match goal with
          | |- context [match network ?e ?n ?r with _ => _ end] =>
              destruct (network e n r)
          | |- context [if ?c then _ else _] => destruct c
          | |- context [match json ?r with _ => _ end] => destruct (json r)
          end);
    simpl;
    (eexists; split; [rewrite <- ?app_assoc; reflexivity|]);
    simpl;
    (split; [lia|]); (split; [lia|]); (split; [lia|]);
    (split; [repeat constructor|]);
    first [ left; split; reflexivity
          | right; eexists; eexists; repeat split; reflexivity ].
Qed.

Lemma ok_not_401 (r : Response) : ok r = true -> (status r =? 401)%Z = false.
Proof.
  unfold ok; intros H.
  destruct (Z.eqb_spec (status r) 401) as [E|]; [|reflexivity].
  rewrite E in H; discriminate H.
Qed.

(** X7: a call answered 2xx at once is one fetch and nothing else: no
    exchange at the token endpoint, no write, the token kept; the request
    returns the body, or throws what reading the body throws. *)
Theorem request_served_at_once
    (env : Env) (userId refreshToken : string) (url : Url) (st : State)
    (r1 : Response) :
  network env (fetchCount st)
          (ApiRequest url (bearer (currentAccessToken st))) = Responded r1 ->
  ok r1 = true ->
  exists st' : State,
    makeRequest env userId refreshToken url st
    = (match json r1 with
       | Json b => Returned b
       | Malformed e => Thrown e
       end, st')
    /\ trace st'
       = (trace st
            ++ [Fetched (ApiRequest url (bearer (currentAccessToken st)))])%list
    /\ fetchCount st' = S (fetchCount st)
    /\ currentAccessToken st' = currentAccessToken st.
Proof.
  intros H1 Hok.
  unfold makeRequest, bind, fetch, getToken.
  simpl. rewrite H1. simpl. rewrite (ok_not_401 _ Hok). simpl.
  rewrite Hok. simpl. unfold readJson.
  destruct (json r1); eexists; repeat split; reflexivity.
Qed.

Lemma request_served_at_once_witness :
  exists st' : State,
    makeRequest MoreSamples.allServed "user-1" "refresh-1" (MessageUrl "m3")
                Samples.beforeCall
    = (Returned (Samples.detailBody "m3"), st')
    /\ trace st'
       = [Fetched (ApiRequest (MessageUrl "m3") "Bearer old-token")]
    /\ fetchCount st' = 1
    /\ currentAccessToken st' = Some "old-token".
Proof.
  apply (request_served_at_once MoreSamples.allServed "user-1" "refresh-1"
           (MessageUrl "m3") Samples.beforeCall
           (Samples.answer (MessageUrl "m3")));
    reflexivity.
Defined.

(** X8: a first answer that is neither 2xx nor 401 makes the request
    throw the API error with its status and status text at once: one
    fetch, no exchange at the token endpoint, no second call. *)
Theorem request_fails_without_refresh
    (env : Env) (userId refreshToken : string) (url : Url) (st : State)
    (r1 : Response) :
  network env (fetchCount st)
          (ApiRequest url (bearer (currentAccessToken st))) = Responded r1 ->
  status r1 <> 401%Z ->
  ok r1 = false ->
  exists st' : State,
    makeRequest env userId refreshToken url st
    = (Thrown (ApiFailure (status r1) (statusText r1)), st')
    /\ trace st'
       = (trace st
            ++ [Fetched (ApiRequest url (bearer (currentAccessToken st)))])%list
    /\ fetchCount st' = S (fetchCount st)
    /\ currentAccessToken st' = currentAccessToken st.
Proof.
  intros H1 Hs Hok.
  unfold makeRequest, bind, fetch, getToken.
  simpl. rewrite H1. simpl.
  destruct (Z.eqb_spec (status r1) 401) as [E|_]; [contradiction|].
  simpl. rewrite Hok. simpl.
  eexists; repeat split; reflexivity.
Qed.

Lemma request_fails_without_refresh_witness :
  exists st' : State,
    makeRequest MoreSamples.apiDown "user-1" "refresh-1" (MessageUrl "m3")
                Samples.beforeCall
    = (Thrown (ApiFailure 503 "Service Unavailable"), st')
    /\ trace st'
       = [Fetched (ApiRequest (MessageUrl "m3") "Bearer old-token")]
    /\ fetchCount st' = 1
    /\ currentAccessToken st' = Some "old-token".
Proof.
  apply (request_fails_without_refresh MoreSamples.apiDown "user-1"
           "refresh-1" (MessageUrl "m3") Samples.beforeCall
           (Samples.failure 503 "Service Unavailable")).
  - reflexivity.
  - discriminate.
  - reflexivity.
Defined.

(** X9: whatever the outside answers, one request makes one or two calls
    to the API, all to its own URL, and at most one exchange at the token
    endpoint, and these are all its fetches.  Either it writes nothing to
    the store and leaves the client's token as it was, or it writes once,
    for its user and after its one exchange, and the token written is the
    token the client holds afterwards. *)
Theorem request_footprint
    (env : Env) (userId refreshToken : string) (url : Url) (st : State) :
  let st' := snd (makeRequest env userId refreshToken url st) in
  exists evs : list Event,
    trace st' = (trace st ++ evs)%list
    /\ fetchCount st'
       = fetchCount st + List.length (apiCalls evs)
         + List.length (tokenExchanges evs)
    /\ 1 <= List.length (apiCalls evs) <= 2
    /\ List.length (tokenExchanges evs) <= 1
    /\ Forall (fun call => fst call = url) (apiCalls evs)
    /\ ((storeWrites evs = []
         /\ currentAccessToken st' = currentAccessToken st)
        \/ (exists t at_,
               storeWrites evs = [(userId, t, at_)]
               /\ tokenExchanges evs = [refreshToken]
               /\ currentAccessToken st' = t)).
Proof. exact (makeRequest_footprint env userId refreshToken url st). Qed.

(** X10: after a 401, an exchange that is rejected, or answered 2xx with
    a body that cannot be read, makes the request throw that very error:
    it is logged once, nothing is written to the store, the call is not
    made again and the client keeps its token. *)
Theorem refresh_error_is_rethrown
    (env : Env) (userId refreshToken : string) (url : Url) (st : State)
    (r1 : Response) (e : Error) :
  network env (fetchCount st)
          (ApiRequest url (bearer (currentAccessToken st))) = Responded r1 ->
  status r1 = 401%Z ->
  network env (S (fetchCount st)) (tokenRequest env refreshToken) = Rejected e
  \/ (exists r2,
         network env (S (fetchCount st)) (tokenRequest env refreshToken)
         = Responded r2
         /\ ok r2 = true /\ json r2 = Malformed e) ->
  exists (st' : State) (evs : list Event),
    makeRequest env userId refreshToken url st = (Thrown e, st')
    /\ trace st' = (trace st ++ evs)%list
    /\ apiCalls evs = [ (url, bearer (currentAccessToken st)) ]
    /\ storeWrites evs = []
    /\ errorsLogged evs = [ ("Error refreshing token:", e) ]
    /\ currentAccessToken st' = currentAccessToken st.
Proof.
  intros H1 Hs1 H2.
  unfold tokenRequest in H2.
  unfold makeRequest, refreshAccessToken, bind, tryCatch, fetch, getToken.
  simpl. rewrite H1. simpl. rewrite Hs1. simpl.
  destruct H2 as [H2 | [r2 [H2 [Hok2 Hj2]]]]; rewrite H2; simpl.
  - eexists; eexists; split; [reflexivity|].
    simpl; rewrite <- !app_assoc; simpl.
    repeat split; reflexivity.
  - rewrite Hok2; simpl. unfold readJson; rewrite Hj2; simpl.
    eexists; eexists; split; [reflexivity|].
    simpl; rewrite <- !app_assoc; simpl.
    repeat split; reflexivity.
Qed.

Lemma refresh_error_is_rethrown_witness :
  exists (st' : State) (evs : list Event),
    makeRequest MoreSamples.tokenEndpointDown "user-1" "refresh-1"
                (MessageUrl "m3") Samples.beforeCall
    = (Thrown (new_Error "connection refused"), st')
    /\ trace st' = (trace Samples.beforeCall ++ evs)%list
    /\ apiCalls evs = [ (MessageUrl "m3", "Bearer old-token") ]
    /\ storeWrites evs = []
    /\ errorsLogged evs
       = [ ("Error refreshing token:", new_Error "connection refused") ]
    /\ currentAccessToken st' = Some "old-token".
Proof.
  apply (refresh_error_is_rethrown MoreSamples.tokenEndpointDown "user-1"
           "refresh-1" (MessageUrl "m3") Samples.beforeCall
           (Samples.failure 401 "Unauthorized")
           (new_Error "connection refused")).
  - reflexivity.
  - reflexivity.
  - left; reflexivity.
Defined.

(** X11: the client keeps the token it obtained.  When a first request
    has refreshed the token and been served, a second request that is
    answered 2xx is one call with the new token: the exchange and the
    write of the first request are the only ones of the two. *)
Theorem refreshed_token_serves_next_request
    (env : Env) (userId refreshToken : string) (url1 url2 : Url)
    (st : State) (r1 r2 r3 r4 : Response) (data b1 b2 : Body) :
  network env (fetchCount st)
          (ApiRequest url1 (bearer (currentAccessToken st))) = Responded r1 ->
  status r1 = 401%Z ->
  network env (S (fetchCount st)) (tokenRequest env refreshToken)
    = Responded r2 ->
  ok r2 = true ->
  json r2 = Json data ->
  network env (S (S (fetchCount st)))
          (ApiRequest url1 (bearer (access_token data))) = Responded r3 ->
  ok r3 = true ->
  json r3 = Json b1 ->
  network env (S (S (S (fetchCount st))))
          (ApiRequest url2 (bearer (access_token data))) = Responded r4 ->
  ok r4 = true ->
  json r4 = Json b2 ->
  exists (st' : State) (evs : list Event),
    (first <- makeRequest env userId refreshToken url1 ;;
     second <- makeRequest env userId refreshToken url2 ;;
     ret (first, second)) st
    = (Returned (b1, b2), st')
    /\ trace st' = (trace st ++ evs)%list
    /\ apiCalls evs = [ (url1, bearer (currentAccessToken st));
                        (url1, bearer (access_token data));
                        (url2, bearer (access_token data)) ]
    /\ tokenExchanges evs = [refreshToken]
    /\ List.length (storeWrites evs) = 1.
Proof.
  intros H1 Hs1 H2 Hok2 Hj2 H3 Hok3 Hj3 H4 Hok4 Hj4.
  unfold tokenRequest in H2.
  unfold makeRequest, refreshAccessToken, bind, tryCatch, fetch, getToken.
  simpl. rewrite H1. simpl. rewrite Hs1. simpl.
  rewrite H2. simpl. rewrite Hok2. simpl.
  unfold readJson. rewrite Hj2. simpl.
  rewrite H3. simpl. rewrite Hok3. simpl. rewrite Hj3. simpl.
  rewrite H4. simpl. rewrite (ok_not_401 _ Hok4). simpl.
  rewrite Hok4. simpl. rewrite Hj4. simpl.
  eexists. eexists. split; [reflexivity|].
  simpl. rewrite <- !app_assoc. simpl.
  repeat split; reflexivity.
Qed.

Lemma refreshed_token_serves_next_request_witness :
  exists (st' : State) (evs : list Event),
    (first <- makeRequest Samples.expiredToken "user-1" "refresh-1"
                (MessageUrl "m1") ;;
     second <- makeRequest Samples.expiredToken "user-1" "refresh-1"
                 (MessageUrl "m2") ;;
     ret (first, second)) Samples.beforeCall
    = (Returned (Samples.detailBody "m1", Samples.detailBody "m2"), st')
    /\ trace st' = (trace Samples.beforeCall ++ evs)%list
    /\ apiCalls evs = [ (MessageUrl "m1", "Bearer old-token");
                        (MessageUrl "m1", "Bearer new-token");
                        (MessageUrl "m2", "Bearer new-token") ]
    /\ tokenExchanges evs = ["refresh-1"]
    /\ List.length (storeWrites evs) = 1.
Proof.
  apply (refreshed_token_serves_next_request Samples.expiredToken "user-1"
           "refresh-1" (MessageUrl "m1") (MessageUrl "m2")
           Samples.beforeCall
           (Samples.failure 401 "Unauthorized")
           (Samples.okResponse (Samples.tokenBody "new-token"))
           (Samples.answer (MessageUrl "m1"))
           (Samples.answer (MessageUrl "m2"))
           (Samples.tokenBody "new-token")
           (Samples.detailBody "m1") (Samples.detailBody "m2"));
    reflexivity.
Defined.

(** ** More on the handler *)

(** With a credential that names a user and tokens stored for that user,
    the [try] block comes to the listing call in [listingState]. *)
Lemma handle_at_listing
    (env : Env) (req : Request) (st : State) (h : string) (u : User)
    (a : AuthData) :
  authorization req = Some h ->
  h <> EmptyString ->
  userError (getUser env (replace "Bearer " EmptyString h)) = None ->
  user (getUser env (replace "Bearer " EmptyString h)) = Some u ->
  authError (selectTokens env (user_id u)) = None ->
  authData (selectTokens env (user_id u)) = Some a ->
  handle env req st
  = bind (makeRequest env (user_id u) (stored_refresh_token a)
            (recentUrl (now env (fetchCount st))))
         (afterListing env
            (gmailClient env (user_id u) (stored_refresh_token a)))
         (listingState st (replace "Bearer " EmptyString h) u a).
Proof.
  intros Hauth Hne Herr Huser Hae Had.
  unfold handle; cbv zeta; unfold bind at 1; rewrite Hauth.
  destruct h as [|c h]; [congruence|].
  cbn [ret]. unfold bind at 1. cbn [emit].
  rewrite Herr, Huser.
  unfold consoleLog. unfold bind at 1. cbn [emit].
  unfold bind at 1. cbn [emit].
  rewrite Hae, Had.
  unfold createGmailClient. unfold bind at 1. unfold bind at 1.
  cbn [setToken ret]. unfold bind at 1. cbn [dateNow].
  unfold bind at 1. cbn [emit].
  match goal with
  | |- bind _ _ ?s1 = bind _ _ ?s2 =>
      replace s1 with s2
        by (unfold listingState; cbn [fetchCount trace currentAccessToken
                                      detectedNewsletters processedCount];
            f_equal; rewrite <- !app_assoc; reflexivity)
  end.
  reflexivity.
Qed.

(** The answers of the handler, each with its status and headers. *)
Lemma serve_answers (env : Env) (req : Request) (st : State) :
  fst (serve env req st)
  = {| http_status := 200; http_headers := corsHeaders;
       http_body := Text "ok" |}
  \/ (exists e,
        fst (serve env req st)
        = jsonResponse (errorBody (message e) (stackOf env e)) 500)
  \/ (exists body, fst (serve env req st) = jsonResponse body 200).
Proof.
  unfold serve.
  destruct (String.eqb (method req) "OPTIONS"); [left; reflexivity|].
  right.
  destruct (handle env req st) as [[resp|e] st'] eqn:Hrun;
    [|left; exists e; reflexivity].
  right; simpl.
  revert Hrun; unfold handle, bind at 1.
  destruct (authorization req) as [[|c h]|]; try discriminate.
  cbn [ret]. unfold bind at 1. cbn [emit].
  destruct (userError (getUser env _)); [discriminate|].
  destruct (user (getUser env _)) as [u|]; [|discriminate].
  unfold consoleLog. unfold bind at 1. cbn [emit]. unfold bind at 1. cbn [emit].
  destruct (authError (selectTokens env _)).
  { intros H; injection H as <- _; eexists; reflexivity. }
  destruct (authData (selectTokens env _)) as [a|].
  2:{ intros H; injection H as <- _; eexists; reflexivity. }
  unfold createGmailClient. unfold bind at 1. unfold bind at 1.
  cbn [setToken ret]. unfold bind at 1. cbn [dateNow].
  unfold bind at 1. cbn [emit].
  unfold bind at 1.
  match goal with
  | |- context [listMessages ?g ?q ?n ?s] =>
      destruct (listMessages g q n s) as [[b|e] st1]
  end; [|discriminate].
  destruct (messages b) as [found|].
  2:{ intros H; injection H as <- _; eexists; reflexivity. }
  unfold bind at 1. cbn [emit].
  match goal with
  | |- assembleReport _ (gmailClient _ ?u ?rt) _ ?s = _ -> _ =>
      destruct (assembleReport_returns env u rt found s) as [st2 [Hrep _]];
      rewrite Hrep
  end.
  intros H; injection H as <- _; eexists; reflexivity.
Qed.

(** X12: every answer of the handler has status 200 or 500 and carries
    the two CORS headers first; with status 500 the body is that of an
    error, [success] false and the message of what was thrown. *)
Theorem answer_status_and_cors (env : Env) (req : Request) (st : State) :
  (http_status (fst (serve env req st)) = 200%Z
   \/ (http_status (fst (serve env req st)) = 500%Z
       /\ exists e,
            http_body (fst (serve env req st))
            = JsonText (errorBody (message e) (stackOf env e))))
  /\ exists rest,
       http_headers (fst (serve env req st)) = (corsHeaders ++ rest)%list.
Proof.
  destruct (serve_answers env req st) as [H|[[e H]|[body H]]]; rewrite H.
  - split; [left; reflexivity | exists []; reflexivity].
  - split; [right; split; [reflexivity | exists e; reflexivity]
           | eexists; reflexivity].
  - split; [left; reflexivity | eexists; reflexivity].
Qed.

(** X13: without an authorization header, or with an empty one, a
    request other than a pre-flight is answered 500 with the message of
    the missing header; nothing is asked of the identity service or the
    store and nothing is fetched: the only event is the log of the
    error. *)
Theorem missing_header_is_500
    (env : Env) (req : Request) (st : State) :
  String.eqb (method req) "OPTIONS" = false ->
  authorization req = None \/ authorization req = Some EmptyString ->
  fst (serve env req st)
  = jsonResponse
      (errorBody "Missing authorization header"
         (stackOf env (new_Error "Missing authorization header"))) 500
  /\ trace (snd (serve env req st))
     = (trace st
          ++ [LoggedError "Test function error:"
                (new_Error "Missing authorization header")])%list
  /\ fetchCount (snd (serve env req st)) = fetchCount st.
Proof.
  intros Hm Hauth; unfold serve, handle, bind at 1; rewrite Hm.
  destruct Hauth as [-> | ->]; repeat split; reflexivity.
Qed.

Lemma missing_header_is_500_witness :
  fst (serve Samples.expiredToken MoreSamples.noHeaderRequest initialState)
  = jsonResponse
      (errorBody "Missing authorization header"
         "Error: Missing authorization header") 500
  /\ trace (snd (serve Samples.expiredToken MoreSamples.noHeaderRequest
                       initialState))
     = [LoggedError "Test function error:"
          (new_Error "Missing authorization header")]
  /\ fetchCount (snd (serve Samples.expiredToken MoreSamples.noHeaderRequest
                            initialState)) = 0.
Proof.
  apply (missing_header_is_500 Samples.expiredToken
           MoreSamples.noHeaderRequest initialState).
  - reflexivity.
  - left; reflexivity.
Defined.

(** X14: when the identity service reports an error or no user for the
    credential, the answer is 500 with the message of the invalid token;
    the service has been asked once, about the header with its first
    [Bearer ] removed, the store has not been queried and nothing has been
    fetched. *)
Theorem invalid_token_is_500
    (env : Env) (req : Request) (st : State) (h : string) :
  String.eqb (method req) "OPTIONS" = false ->
  authorization req = Some h ->
  h <> EmptyString ->
  userError (getUser env (replace "Bearer " EmptyString h)) <> None
  \/ user (getUser env (replace "Bearer " EmptyString h)) = None ->
  fst (serve env req st)
  = jsonResponse
      (errorBody "Invalid or expired token"
         (stackOf env (new_Error "Invalid or expired token"))) 500
  /\ trace (snd (serve env req st))
     = (trace st
          ++ [ UserQueried (replace "Bearer " EmptyString h);
               LoggedError "Test function error:"
                 (new_Error "Invalid or expired token") ])%list
  /\ fetchCount (snd (serve env req st)) = fetchCount st
  /\ (forall t, h = "Bearer " ++ t ->
                replace "Bearer " EmptyString h = t).
Proof.
  intros Hm Hauth Hne Hbad.
  assert (Hrun : handle env req st
                 = (Thrown (new_Error "Invalid or expired token"),
                    snd (emit (UserQueried
                                 (replace "Bearer " EmptyString h)) st))).
  { unfold handle; cbv zeta; unfold bind at 1; rewrite Hauth.
    destruct h as [|c h]; [congruence|].
    cbn [ret]. unfold bind at 1. cbn [emit].
    destruct (userError (getUser env _)) as [e|]; [reflexivity|].
    destruct Hbad as [Hbad | ->]; [congruence | reflexivity]. }
  unfold serve; rewrite Hm, Hrun.
  split; [reflexivity|].
  split; [simpl; rewrite <- app_assoc; reflexivity|].
  split; [reflexivity|].
  intros t ->; reflexivity.
Qed.

Lemma invalid_token_is_500_witness :
  fst (serve Samples.expiredToken MoreSamples.badTokenRequest initialState)
  = jsonResponse
      (errorBody "Invalid or expired token"
         "Error: Invalid or expired token") 500
  /\ trace (snd (serve Samples.expiredToken MoreSamples.badTokenRequest
                       initialState))
     = [ UserQueried "forged";
         LoggedError "Test function error:"
           (new_Error "Invalid or expired token") ]
  /\ fetchCount (snd (serve Samples.expiredToken MoreSamples.badTokenRequest
                            initialState)) = 0.
Proof.
  destruct (invalid_token_is_500 Samples.expiredToken
              MoreSamples.badTokenRequest initialState "Bearer forged")
    as [H1 [H2 [H3 _]]].
  - reflexivity.
  - reflexivity.
  - discriminate.
  - left; discriminate.
  - repeat split; assumption.
Defined.

(** X15: whatever the listing call throws, the handler answers 500 with
    the message of that error; no detail is fetched and the curated list
    is not queried: after the listing the only event is the log of the
    error. *)
Theorem listing_error_is_500
    (env : Env) (req : Request) (st st2 : State) (h : string) (u : User)
    (a : AuthData) (e : Error) :
  String.eqb (method req) "OPTIONS" = false ->
  authorization req = Some h ->
  h <> EmptyString ->
  userError (getUser env (replace "Bearer " EmptyString h)) = None ->
  user (getUser env (replace "Bearer " EmptyString h)) = Some u ->
  authError (selectTokens env (user_id u)) = None ->
  authData (selectTokens env (user_id u)) = Some a ->
  makeRequest env (user_id u) (stored_refresh_token a)
    (recentUrl (now env (fetchCount st)))
    (listingState st (replace "Bearer " EmptyString h) u a)
  = (Thrown e, st2) ->
  fst (serve env req st)
  = jsonResponse (errorBody (message e) (stackOf env e)) 500
  /\ trace (snd (serve env req st))
     = (trace st2 ++ [LoggedError "Test function error:" e])%list
  /\ fetchCount (snd (serve env req st)) = fetchCount st2.
Proof.
  intros Hm Hauth Hne Herr Huser Hae Had Hlist.
  unfold serve; rewrite Hm.
  rewrite (handle_at_listing env req st h u a Hauth Hne Herr Huser Hae Had).
  unfold bind; rewrite Hlist.
  repeat split; reflexivity.
Qed.

Lemma listing_error_is_500_witness :
  fst (serve MoreSamples.apiDown Samples.goodRequest initialState)
  = jsonResponse
      (errorBody "Gmail API error: 503 Service Unavailable"
         "Error: Gmail API error: 503 Service Unavailable") 500
  /\ fetchCount (snd (serve MoreSamples.apiDown Samples.goodRequest
                            initialState)) = 1.
Proof.
  destruct (listing_error_is_500 MoreSamples.apiDown Samples.goodRequest
              initialState
              (snd (makeRequest MoreSamples.apiDown "user-1" "refresh-1"
                      (recentUrl (now MoreSamples.apiDown 0))
                      (listingState initialState "good-jwt" Samples.theUser
                         MoreSamples.storedSample)))
              "Bearer good-jwt" Samples.theUser MoreSamples.storedSample
              (ApiFailure 503 "Service Unavailable"))
    as [H1 [_ H3]]; try reflexivity.
  - discriminate.
  - split; [exact H1 | exact H3].
Defined.

(** X16: a listing without a [messages] property and a listing with an
    empty [messages] array are answered differently.  Without the
    property the answer is the note that nothing is recent, and the
    handler stops there.  With the empty array the handler goes on: it
    fetches no detail, queries the curated list and answers with the
    report, in which [totalEmails], [processedEmails] and
    [detectedNewsletters] are zero and the list of entries is empty,
    while [curatedPatternsCount] is the size of the curated list. *)
Theorem absent_and_empty_listing
    (env : Env) (req : Request) (st st2 : State) (h : string) (u : User)
    (a : AuthData) (b : Body) :
  String.eqb (method req) "OPTIONS" = false ->
  authorization req = Some h ->
  h <> EmptyString ->
  userError (getUser env (replace "Bearer " EmptyString h)) = None ->
  user (getUser env (replace "Bearer " EmptyString h)) = Some u ->
  authError (selectTokens env (user_id u)) = None ->
  authData (selectTokens env (user_id u)) = Some a ->
  makeRequest env (user_id u) (stored_refresh_token a)
    (recentUrl (now env (fetchCount st)))
    (listingState st (replace "Bearer " EmptyString h) u a)
  = (Returned b, st2) ->
  (messages b = None ->
   serve env req st = (jsonResponse noRecentBody 200, st2))
  /\ (messages b = Some [] ->
      fst (serve env req st)
      = jsonResponse (reportBody 0 0 [] (selectCurated env)) 200
      /\ trace (snd (serve env req st))
         = (trace st2 ++ [Logged "Found 0 recent emails";
                          CuratedQueried])%list
      /\ fetchCount (snd (serve env req st)) = fetchCount st2
      /\ field "stats" (reportBody 0 0 [] (selectCurated env))
         = Some (JObject
                   [ ("totalEmails", JNumber 0);
                     ("processedEmails", JNumber 0);
                     ("detectedNewsletters", JNumber 0);
                     ("curatedPatternsCount",
                      JNumber (match selectCurated env with
                               | Some l => Z.of_nat (List.length l)
                               | None => 0%Z
                               end)) ])
      /\ field "detectedNewsletters"
               (reportBody 0 0 [] (selectCurated env))
         = Some (JArray [])).
Proof.
  intros Hm Hauth Hne Herr Huser Hae Had Hlist.
  assert (Hrun : handle env req st
                 = afterListing env
                     (gmailClient env (user_id u) (stored_refresh_token a))
                     b st2).
  { rewrite (handle_at_listing env req st h u a
               Hauth Hne Herr Huser Hae Had).
    unfold bind; rewrite Hlist; reflexivity. }
  unfold serve; rewrite Hm, Hrun; unfold afterListing.
  split; intros Hb; rewrite Hb.
  - reflexivity.
  - split; [reflexivity|].
    split; [simpl; rewrite <- app_assoc; reflexivity|].
    repeat split; reflexivity.
Qed.

Lemma absent_and_empty_listing_witness :
  fst (serve MoreSamples.quietInbox Samples.goodRequest initialState)
  = jsonResponse noRecentBody 200
  /\ fst (serve MoreSamples.emptyListing Samples.goodRequest initialState)
     = jsonResponse
         (reportBody 0 0 [] (selectCurated MoreSamples.emptyListing)) 200.
Proof.
  split.
  - pose proof (absent_and_empty_listing MoreSamples.quietInbox
                  Samples.goodRequest initialState
                  (snd (makeRequest MoreSamples.quietInbox "user-1"
                          "refresh-1"
                          (recentUrl (now MoreSamples.quietInbox 0))
                          (listingState initialState "good-jwt"
                             Samples.theUser MoreSamples.storedSample)))
                  "Bearer good-jwt" Samples.theUser MoreSamples.storedSample
                  Samples.emptyBody
                  eq_refl eq_refl ltac:(discriminate)
                  eq_refl eq_refl eq_refl eq_refl eq_refl) as [Hnone _].
    rewrite (Hnone eq_refl); reflexivity.
  - pose proof (absent_and_empty_listing MoreSamples.emptyListing
                  Samples.goodRequest initialState
                  (snd (makeRequest MoreSamples.emptyListing "user-1"
                          "refresh-1"
                          (recentUrl (now MoreSamples.emptyListing 0))
                          (listingState initialState "good-jwt"
                             Samples.theUser MoreSamples.storedSample)))
                  "Bearer good-jwt" Samples.theUser MoreSamples.storedSample
                  {| access_token := None; messages := Some [];
                     payload := None |}
                  eq_refl eq_refl ltac:(discriminate)
                  eq_refl eq_refl eq_refl eq_refl eq_refl) as [_ Hempty].
    apply (Hempty eq_refl).
Defined.

(** ** More on the loop *)

Lemma delivered_all (outcomes : list (MessageSummary * Result Body)) :
  failed outcomes = [] ->
  map fst (delivered outcomes) = map fst outcomes.
Proof.
  induction outcomes as [|[m [b|e]] rest IH]; simpl; intros H.
  - reflexivity.
  - now rewrite IH.
  - discriminate H.
Qed.

(** X17: when every detail call that the run makes for the first ten
    summaries delivers, each in the state in which the loop makes it, the
    report counts the smaller of ten and the number of summaries as
    processed, while [totalEmails] is the number of all summaries; the
    entries listed are those of the first ten whose sender matches, in
    the order of the listing. *)
Theorem report_counts_first_ten
    (env : Env) (userId refreshToken : string)
    (found : list MessageSummary) (st : State) :
  failed (detailOutcomes (gmailClient env userId refreshToken)
            (firstn 10 found) (resetCounts st)) = [] ->
  (exists st',
     assembleReport env (gmailClient env userId refreshToken) found st
     = (Returned
          (jsonResponse
             (reportBody (List.length found)
                (Nat.min 10 (List.length found))
                (classifiedAll
                   (delivered
                      (detailOutcomes (gmailClient env userId refreshToken)
                         (firstn 10 found) (resetCounts st))))
                (selectCurated env))
             200),
        st'))
  /\ map fst
       (delivered
          (detailOutcomes (gmailClient env userId refreshToken)
             (firstn 10 found) (resetCounts st)))
     = firstn 10 found.
Proof.
  intros Hnone.
  assert (Hall : map fst
                   (delivered
                      (detailOutcomes (gmailClient env userId refreshToken)
                         (firstn 10 found) (resetCounts st)))
                 = firstn 10 found).
  { rewrite (delivered_all _ Hnone).
    apply detailOutcomes_summaries. }
  split; [|exact Hall].
  destruct (assembleReport_follows_run env userId refreshToken found st)
    as [st' Hrun].
  exists st'; rewrite Hrun.
  replace (List.length
             (delivered
                (detailOutcomes (gmailClient env userId refreshToken)
                   (firstn 10 found) (resetCounts st))))
    with (Nat.min 10 (List.length found)); [reflexivity|].
  rewrite <- (length_map fst), Hall; apply eq_sym, length_firstn.
Qed.

Lemma report_counts_first_ten_witness :
  (exists st',
     assembleReport MoreSamples.allServed
       (gmailClient MoreSamples.allServed "user-1" "refresh-1")
       MoreSamples.twelveSummaries Samples.beforeCall
     = (Returned
          (jsonResponse
             (reportBody 12 10
                (classifiedAll
                   (delivered
                      (detailOutcomes
                         (gmailClient MoreSamples.allServed "user-1"
                            "refresh-1")
                         (firstn 10 MoreSamples.twelveSummaries)
                         (resetCounts Samples.beforeCall))))
                (selectCurated MoreSamples.allServed))
             200),
        st'))
  /\ map fst
       (delivered
          (detailOutcomes
             (gmailClient MoreSamples.allServed "user-1" "refresh-1")
             (firstn 10 MoreSamples.twelveSummaries)
             (resetCounts Samples.beforeCall)))
     = Samples.tenSummaries.
Proof.
  apply (report_counts_first_ten MoreSamples.allServed "user-1" "refresh-1"
           MoreSamples.twelveSummaries Samples.beforeCall).
  vm_compute; reflexivity.
Defined.

Lemma headerValue_absent (n : string) (hs : list Header) :
  (forall h, In h hs -> h_name h <> n) -> headerValue n hs = EmptyString.
Proof.
  unfold headerValue; induction hs as [|h hs IH]; intros Hno; simpl.
  - reflexivity.
  - destruct (String.eqb_spec (h_name h) n) as [E|_].
    + exfalso; apply (Hno h); [left; reflexivity | exact E].
    + apply IH; intros h' Hin; apply Hno; right; exact Hin.
Qed.

(** X18: a message whose detail has no header named exactly [From] (no
    payload, no headers, or only headers of other names, [from] in lower
    case among them) is counted as processed and not listed. *)
Theorem message_without_sender_is_counted_only
    (env : Env) (userId refreshToken : string) (message : MessageSummary)
    (st st1 : State) (fullMessage : Body) :
  getMessage (gmailClient env userId refreshToken) (msg_id message) st
  = (Returned fullMessage, st1) ->
  (forall h, In h (payloadHeaders fullMessage) -> h_name h <> "From") ->
  exists st',
    processMessage (gmailClient env userId refreshToken) message st
    = (Returned tt, st')
    /\ processedCount st' = S (processedCount st)
    /\ detectedNewsletters st' = detectedNewsletters st.
Proof.
  intros Hget Hno.
  destruct (processMessage_returned _
              (client_keeps_counts env userId refreshToken)
              message st st1 fullMessage Hget) as [st' [Hrun [Hd Hp]]].
  exists st'; split; [exact Hrun|]; split; [exact Hp|].
  rewrite Hd; unfold classified.
  rewrite (headerValue_absent "From" _ Hno).
  change (matchesNewsletterPattern (extractEmail EmptyString)) with false.
  apply app_nil_r.
Qed.

Lemma message_without_sender_is_counted_only_witness :
  exists st',
    processMessage (gmailClient MoreSamples.unsignedWorld "user-1"
                      "refresh-1")
                   (Samples.summary "m1") Samples.beforeCall
    = (Returned tt, st')
    /\ processedCount st' = 1
    /\ detectedNewsletters st' = [].
Proof.
  apply (message_without_sender_is_counted_only MoreSamples.unsignedWorld
           "user-1" "refresh-1" (Samples.summary "m1") Samples.beforeCall
           (snd (getMessage (gmailClient MoreSamples.unsignedWorld "user-1"
                               "refresh-1") "m1" Samples.beforeCall))
           MoreSamples.unsignedBody).
  - reflexivity.
  - intros h Hin; simpl in Hin.
    destruct Hin as [<-|[<-|[]]]; discriminate.
Defined.

(** ** What a request may fetch *)

Lemma processMessage_fetches
    (env : Env) (userId refreshToken : string) (message : MessageSummary)
    (st : State) :
  fetchCount st
  <= fetchCount (snd (processMessage (gmailClient env userId refreshToken)
                                     message st))
  <= fetchCount st + 3.
Proof.
  destruct (makeRequest_footprint env userId refreshToken
              (MessageUrl (msg_id message)) st)
    as [evs [_ [Hf [Ha [Ht _]]]]].
  unfold processMessage, tryCatch, bind.
  change (getMessage (gmailClient env userId refreshToken) (msg_id message))
    with (makeRequest env userId refreshToken (MessageUrl (msg_id message))).
  destruct (makeRequest env userId refreshToken
              (MessageUrl (msg_id message)) st) as [[b|e] st1];
    simpl in *.
  - destruct (matchesNewsletterPattern _); simpl; lia.
  - lia.
Qed.

Lemma loop_fetches
    (env : Env) (userId refreshToken : string)
    (batch : list MessageSummary) (st : State) :
  fetchCount st
  <= fetchCount (snd (forOf batch
                        (processMessage (gmailClient env userId refreshToken))
                        st))
  <= fetchCount st + 3 * List.length batch.
Proof.
  revert st; induction batch as [|m batch IH]; intros st.
  - simpl; lia.
  - cbn [forOf]; unfold bind.
    pose proof (processMessage_fetches env userId refreshToken m st) as Hm.
    destruct (processMessage_total _
                (client_keeps_counts env userId refreshToken) m st)
      as [st1 Hrun].
    rewrite Hrun in *; simpl in Hm.
    specialize (IH st1); simpl List.length; lia.
Qed.

Lemma assembleReport_fetches
    (env : Env) (userId refreshToken : string)
    (found : list MessageSummary) (st : State) :
  fetchCount st
  <= fetchCount (snd (assembleReport env
                        (gmailClient env userId refreshToken) found st))
  <= fetchCount st + 30.
Proof.
  unfold assembleReport, bind, setDetected, setProcessed.
  cbn -[firstn forOf].
  match goal with
  | |- context [forOf ?l ?f ?s] =>
      pose proof (loop_fetches env userId refreshToken l s) as Hloop;
      destruct (forOf l f s) as [[[]|e] st1]
  end; cbn -[firstn] in *;
    pose proof (firstn_le_length 10 found);
    rewrite length_firstn in Hloop; lia.
Qed.

Lemma handle_fetches (env : Env) (req : Request) (st st' : State)
    (r : Result HttpResponse) :
  handle env req st = (r, st') ->
  fetchCount st <= fetchCount st' <= fetchCount st + 33.
Proof.
  unfold handle, bind at 1.
  destruct (authorization req) as [[|c h]|];
    try (intros H; injection H as _ <-; simpl; lia).
  cbn [ret]. unfold bind at 1. cbn [emit].
  destruct (userError (getUser env _));
    [intros H; injection H as _ <-; simpl; lia|].
  destruct (user (getUser env _)) as [u|];
    [|intros H; injection H as _ <-; simpl; lia].
  unfold consoleLog. unfold bind at 1. cbn [emit]. unfold bind at 1. cbn [emit].
  destruct (authError (selectTokens env _));
    [intros H; injection H as _ <-; simpl; lia|].
  destruct (authData (selectTokens env _)) as [a|];
    [|intros H; injection H as _ <-; simpl; lia].
  unfold createGmailClient. unfold bind at 1. unfold bind at 1.
  cbn [setToken ret]. unfold bind at 1. cbn [dateNow].
  unfold bind at 1. cbn [emit].
  unfold bind at 1.
  match goal with
  | |- context [listMessages (gmailClient _ ?uid ?rt) ?q ?n ?s] =>
      destruct (makeRequest_footprint env uid rt (MessagesUrl q (ofZ n)) s)
        as [evs [_ [Hf [Ha [Ht _]]]]];
      change (listMessages (gmailClient env uid rt) q n s)
        with (makeRequest env uid rt (MessagesUrl q (ofZ n)) s);
      destruct (makeRequest env uid rt (MessagesUrl q (ofZ n)) s)
        as [[b|e] st1]
  end; simpl in Hf; [|intros H; injection H as _ <-; lia].
  destruct (messages b) as [found|];
    [|intros H; injection H as _ <-; lia].
  unfold bind at 1. cbn [emit].
  match goal with
  | |- context [assembleReport _ (gmailClient _ ?uid ?rt) ?f ?s] =>
      pose proof (assembleReport_fetches env uid rt f s) as Hrep
  end.
  intros H; rewrite H in Hrep; simpl in Hrep; lia.
Qed.

(** X19: one request to the handler makes at most 33 fetches, three for
    the listing and three for each of ten details; the loop over a batch
    makes at most three for each summary. *)
Theorem at_most_33_fetches (env : Env) (req : Request) (st : State) :
  fetchCount st <= fetchCount (snd (serve env req st)) <= fetchCount st + 33
  /\ forall userId refreshToken batch s,
       fetchCount s
       <= fetchCount
            (snd (forOf batch
                    (processMessage (gmailClient env userId refreshToken)) s))
       <= fetchCount s + 3 * List.length batch.
Proof.
  split; [|intros; apply loop_fetches].
  unfold serve.
  destruct (String.eqb (method req) "OPTIONS"); [simpl; lia|].
  destruct (handle env req st) as [r st1] eqn:Hrun.
  pose proof (handle_fetches env req st st1 r Hrun) as H.
  destruct r; simpl; lia.
Qed.

Lemma apiCalls_app (l1 l2 : list Event) :
  apiCalls (l1 ++ l2) = (apiCalls l1 ++ apiCalls l2)%list.
Proof.
  induction l1 as [|ev l1 IH]; simpl; [reflexivity|].
  destruct ev as [[url auth| ] | | | | | |]; simpl; rewrite ?IH; reflexivity.
Qed.

Lemma processMessage_calls
    (env : Env) (userId refreshToken : string) (message : MessageSummary)
    (st : State) :
  exists evs : list Event,
    trace (snd (processMessage (gmailClient env userId refreshToken)
                               message st))
    = (trace st ++ evs)%list
    /\ Forall (fun call => fst call = MessageUrl (msg_id message))
              (apiCalls evs).
Proof.
  destruct (makeRequest_footprint env userId refreshToken
              (MessageUrl (msg_id message)) st)
    as [evs [Htr [_ [_ [_ [Hall _]]]]]].
  unfold processMessage, tryCatch, bind.
  change (getMessage (gmailClient env userId refreshToken) (msg_id message))
    with (makeRequest env userId refreshToken (MessageUrl (msg_id message))).
  destruct (makeRequest env userId refreshToken
              (MessageUrl (msg_id message)) st) as [[b|e] st1];
    simpl in Htr.
  - exists evs; split; [|exact Hall].
    destruct (matchesNewsletterPattern _); simpl; exact Htr.
  - exists (evs ++ [LoggedError ("Error processing message "
                                  ++ msg_id message ++ ":") e])%list.
    simpl; rewrite Htr, app_assoc, apiCalls_app; simpl.
    rewrite app_nil_r; split; [reflexivity | exact Hall].
Qed.

Lemma loop_calls
    (env : Env) (userId refreshToken : string)
    (batch : list MessageSummary) (st : State) :
  exists evs : list Event,
    trace (snd (forOf batch
                  (processMessage (gmailClient env userId refreshToken)) st))
    = (trace st ++ evs)%list
    /\ Forall (fun call =>
                 exists m, In m batch /\ fst call = MessageUrl (msg_id m))
              (apiCalls evs).
Proof.
  revert st; induction batch as [|m batch IH]; intros st.
  - exists []; simpl; rewrite app_nil_r; split; [reflexivity | constructor].
  - cbn [forOf]; unfold bind.
    destruct (processMessage_calls env userId refreshToken m st)
      as [evs1 [Htr1 Hall1]].
    destruct (processMessage_total _
                (client_keeps_counts env userId refreshToken) m st)
      as [st1 Hrun].
    rewrite Hrun in *; simpl in Htr1.
    destruct (IH st1) as [evs2 [Htr2 Hall2]].
    exists (evs1 ++ evs2)%list.
    rewrite Htr2, Htr1, app_assoc, apiCalls_app.
    split; [reflexivity|].
    apply Forall_app; split.
    + eapply Forall_impl; [|exact Hall1].
      intros call Hc; exists m; split; [left; reflexivity | exact Hc].
    + eapply Forall_impl; [|exact Hall2].
      intros call [m' [Hin Hc]]; exists m'; split; [right; exact Hin|exact Hc].
Qed.

(** X20: after the listing, the handler calls the API only for the
    details of messages among the first ten summaries: whatever the
    outside answers, no call goes to a later summary or to another
    URL. *)
Theorem details_only_of_first_ten
    (env : Env) (userId refreshToken : string)
    (found : list MessageSummary) (st : State) :
  exists evs : list Event,
    trace (snd (assembleReport env (gmailClient env userId refreshToken)
                               found st))
    = (trace st ++ evs)%list
    /\ Forall (fun call =>
                 exists m, In m (firstn 10 found)
                           /\ fst call = MessageUrl (msg_id m))
              (apiCalls evs).
Proof.
  unfold assembleReport, bind, setDetected, setProcessed.
  cbn -[firstn forOf].
  match goal with
  | |- context [forOf ?l ?f ?s] =>
      destruct (loop_calls env userId refreshToken l s) as [evs [Htr Hall]];
      destruct (forOf l f s) as [[[]|e] st1]
  end; cbn -[firstn] in *.
  - exists (evs ++ [CuratedQueried])%list.
    rewrite Htr, app_assoc, apiCalls_app; simpl; rewrite app_nil_r.
    split; [reflexivity | exact Hall].
  - exists evs; split; assumption.
Qed.

(** ** What a request may write *)

Lemma storeWrites_app (l1 l2 : list Event) :
  storeWrites (l1 ++ l2) = (storeWrites l1 ++ storeWrites l2)%list.
Proof.
  induction l1 as [|ev l1 IH]; simpl; [reflexivity|].
  destruct ev; simpl; rewrite ?IH; reflexivity.
Qed.

Lemma processMessage_writes
    (env : Env) (userId refreshToken : string) (message : MessageSummary)
    (st : State) :
  exists evs : list Event,
    trace (snd (processMessage (gmailClient env userId refreshToken)
                               message st))
    = (trace st ++ evs)%list
    /\ Forall (fun w => fst (fst w) = userId) (storeWrites evs)
    /\ List.length (storeWrites evs) <= 1.
Proof.
  destruct (makeRequest_footprint env userId refreshToken
              (MessageUrl (msg_id message)) st)
    as [evs [Htr [_ [_ [_ [_ Hw]]]]]].
  assert (Hws : Forall (fun w => fst (fst w) = userId) (storeWrites evs)
                /\ List.length (storeWrites evs) <= 1).
  { destruct Hw as [[-> _] | [t [at_ [-> _]]]]; simpl;
      split; auto; repeat constructor. }
  clear Hw; destruct Hws as [Hall Hlen].
  unfold processMessage, tryCatch, bind.
  change (getMessage (gmailClient env userId refreshToken) (msg_id message))
    with (makeRequest env userId refreshToken (MessageUrl (msg_id message))).
  destruct (makeRequest env userId refreshToken
              (MessageUrl (msg_id message)) st) as [[b|e] st1];
    simpl in Htr.
  - exists evs; split; [|split; assumption].
    destruct (matchesNewsletterPattern _); simpl; exact Htr.
  - exists (evs ++ [LoggedError ("Error processing message "
                                  ++ msg_id message ++ ":") e])%list.
    simpl; rewrite Htr, app_assoc, storeWrites_app; simpl.
    rewrite app_nil_r; split; [reflexivity | split; assumption].
Qed.

Lemma loop_writes
    (env : Env) (userId refreshToken : string)
    (batch : list MessageSummary) (st : State) :
  exists evs : list Event,
    trace (snd (forOf batch
                  (processMessage (gmailClient env userId refreshToken)) st))
    = (trace st ++ evs)%list
    /\ Forall (fun w => fst (fst w) = userId) (storeWrites evs)
    /\ List.length (storeWrites evs) <= List.length batch.
Proof.
  revert st; induction batch as [|m batch IH]; intros st.
  - exists []; simpl; rewrite app_nil_r; repeat split; auto.
  - cbn [forOf]; unfold bind.
    destruct (processMessage_writes env userId refreshToken m st)
      as [evs1 [Htr1 [Hall1 Hlen1]]].
    destruct (processMessage_total _
                (client_keeps_counts env userId refreshToken) m st)
      as [st1 Hrun].
    rewrite Hrun in *; simpl in Htr1.
    destruct (IH st1) as [evs2 [Htr2 [Hall2 Hlen2]]].
    exists (evs1 ++ evs2)%list.
    rewrite Htr2, Htr1, app_assoc, storeWrites_app, length_app.
    split; [reflexivity|].
    split; [apply Forall_app; split; assumption | simpl; lia].
Qed.

(** X21: in the loop and the report after it, every write to the
    credential store is for the user the client was created for, and
    there are at most ten of them, one for each summary looked at. *)
Theorem writes_only_for_the_user
    (env : Env) (userId refreshToken : string)
    (found : list MessageSummary) (st : State) :
  exists evs : list Event,
    trace (snd (assembleReport env (gmailClient env userId refreshToken)
                               found st))
    = (trace st ++ evs)%list
    /\ Forall (fun w => fst (fst w) = userId) (storeWrites evs)
    /\ List.length (storeWrites evs) <= 10.
Proof.
  unfold assembleReport, bind, setDetected, setProcessed.
  cbn -[firstn forOf].
  match goal with
  | |- context [forOf ?l ?f ?s] =>
      destruct (loop_writes env userId refreshToken l s)
        as [evs [Htr [Hall Hlen]]];
      destruct (forOf l f s) as [[[]|e] st1]
  end; cbn -[firstn] in *;
    rewrite length_firstn in Hlen.
  - exists (evs ++ [CuratedQueried])%list.
    rewrite Htr, app_assoc, storeWrites_app; simpl; rewrite app_nil_r.
    split; [reflexivity | split; [exact Hall | lia]].
  - exists evs; split; [assumption | split; [assumption | lia]].
Qed.

(** X22: of several headers with the same name the first one counts: the
    value read for a name is that of the first header so named, and a
    header of another name, or the same name in another case, is passed
    over. *)
Theorem first_header_counts
    (n : string) (before after : list Header) (h : Header) :
  (forall h', In h' before -> h_name h' <> n) ->
  h_name h = n ->
  headerValue n (before ++ h :: after) = h_value h.
Proof.
  intros Hno Hname; unfold headerValue.
  induction before as [|h0 before IH]; simpl.
  - rewrite Hname, String.eqb_refl; reflexivity.
  - destruct (String.eqb_spec (h_name h0) n) as [E|_].
    + exfalso; apply (Hno h0); [left; reflexivity | exact E].
    + apply IH; intros h' Hin; apply Hno; right; exact Hin.
Qed.

Lemma first_header_counts_witness :
  headerValue "From"
    [ {| h_name := "from"; h_value := "lower@example.org" |};
      {| h_name := "From"; h_value := "first@example.org" |};
      {| h_name := "From"; h_value := "second@example.org" |} ]
  = "first@example.org".
Proof.
  apply (first_header_counts "From"
           [ {| h_name := "from"; h_value := "lower@example.org" |} ]
           [ {| h_name := "From"; h_value := "second@example.org" |} ]
           {| h_name := "From"; h_value := "first@example.org" |}).
  - intros h' [<-|[]]; discriminate.
  - reflexivity.
Defined.
